(** * OBO-Dashboard: the per-ontology pipeline and the URI check

    A shallow embedding of
    - [util/dashboard_config.py] ([prepare_ontologies]: the per-ontology
      pass and the impact-aggregation pass), and
    - [util/dashboard/fp_003.py] ([check_uri], [has_valid_uris],
      [big_has_valid_uris], [save_invalid_uris]), and
    - [util/dashboard/fp_004.py] ([has_versioning], [big_has_versioning]),
    together with the properties of these functions.

    Python dictionaries are finite maps ([gmap string _]); YAML values are
    the inductive type [yval]; the files of one ontology are a record;
    exceptions, [continue] and the external commands are explicit. *)

From Stdlib Require Import Ascii String ZArith QArith.
From stdpp Require Import gmap strings list fin_maps pretty.

#[local] Set Warnings "-register-all".
#[local] Open Scope string_scope.
#[local] Open Scope Z_scope.

(** ** Python strings *)

(** [needle in hay] on two [str]. *)
Fixpoint contains (needle hay : string) : bool :=
  String.prefix needle hay ||
  match hay with
  | EmptyString => false
  | String _ rest => contains needle rest
  end.

(** [str.lower()], on the ASCII letters. *)
Definition lower_ascii (c : ascii) : ascii :=
  let n := nat_of_ascii c in
  if (65 <=? n)%nat && (n <=? 90)%nat then ascii_of_nat (n + 32) else c.

Fixpoint lower (s : string) : string :=
  match s with
  | EmptyString => EmptyString
  | String c rest => String (lower_ascii c) (lower rest)
  end.

(** ** FP 3, the URI check ([util/dashboard/fp_003.py]) *)

Module FP003.

Definition owl_deprecated : string :=
  "http://www.w3.org/2002/07/owl#deprecated".

(** ['{0} invalid IRIs'.format(n)] and ['{0} warnings on IRIs'.format(n)]. *)
Definition error_msg (n : nat) : string := pretty n ++ " invalid IRIs".
Definition warn_msg (n : nat) : string := pretty n ++ " warnings on IRIs".

(** What a Python call yields: a value, or an exception that leaves the
    function. *)
Inductive exn := AttributeError.

Inductive py (A : Type) :=
| Return (a : A)
| Raises (e : exn).
Arguments Return {A} a.
Arguments Raises {A} e.

(** The three values [check_uri] can return: [True], ['ERROR'], ['WARN']. *)
Inductive check := CTrue | CError | CWarn.

(** Attribute lookup on a [str] for a method that tests a string against
    another: the name is looked up as it is spelled at the call site.
    [str] has [startswith]; a name that [str] does not have raises
    [AttributeError]. *)
Definition str_getattr (name : string) : py (string → string → bool) :=
  if String.eqb name "startswith" then Return (λ s p, String.prefix p s)
  else Raises AttributeError.

Section Check.

(** [re.match(iri_pattern % namespace, iri, re.IGNORECASE)] is not None. *)
Variable re_match : string → string → bool.

Definition ontology_iri (namespace : string) : string :=
  "http://purl.obolibrary.org/obo/" ++ namespace ++ ".owl".

Definition check_uri (namespace iri : string) : py check :=
  if String.eqb iri (ontology_iri namespace) then Return CTrue
  else
    match str_getattr "startswith" with
    | Raises e => Raises e
    | Return startswith =>
        if startswith iri namespace then
          match str_getattr "startwith" with
          | Raises e => Raises e
          | Return startwith =>
              if negb (startwith iri (namespace ++ "_")) then Return CError
              else if negb (re_match namespace iri) then Return CWarn
              else Return CTrue
          end
        else Return CTrue
    end.

(** The result dictionary of a check, [{'status': ..., 'comment': ...}]. *)
Definition status_only (s : string) : gmap string string :=
  {[ "status" := s ]}.
Definition status_comment (s c : string) : gmap string string :=
  <[ "comment" := c ]> {[ "status" := s ]}.

(** [save_invalid_uris]: the lines written to
    [build/dashboard/{ns}/fp3.tsv] ([None] when the file is not opened)
    and the returned dictionary. *)
Definition report_lines (error warn : list string) : list string :=
  ((λ e, "ERROR" ++ String (ascii_of_nat 9) e) <$> error) ++
  ((λ w, "WARN" ++ String (ascii_of_nat 9) w) <$> warn).

Definition save_invalid_uris (ns : string) (error warn : list string)
  : option (list string) * gmap string string :=
  let file :=
    if (0 <? length error)%nat || (0 <? length warn)%nat
    then Some (report_lines error warn) else None in
  let result :=
    if (0 <? length error)%nat && (0 <? length warn)%nat then
      status_comment "ERROR"
        (error_msg (length error) ++ " " ++ warn_msg (length warn))
    else if (0 <? length error)%nat then
      status_comment "ERROR" (error_msg (length error))
    else if (0 <? length warn)%nat then
      status_comment "ERROR" (warn_msg (length warn))
    else status_only "PASS" in
  (file, result).

(** An entity of the loaded ontology, as [has_valid_uris] reads it:
    [e.isOWLAnnotationProperty()], the annotation assertions on its IRI
    (the IRI of each one's property, and what [dash_utils.is_obsolete]
    answers for it), and [e.getIRI().toString()]. *)
Record entity := {
  isOWLAnnotationProperty : bool;
  annotation_assertions : list (string * bool);
  getIRI : string;
}.

Definition is_obsolete_entity (e : entity) : bool :=
  foldl (λ obsolete ann,
           if String.eqb (fst ann) owl_deprecated then snd ann
           else obsolete)
        false (annotation_assertions e).

(** The loop of [has_valid_uris] over the entities, with the two
    accumulators [error] and [warn]. *)
Fixpoint check_entities (namespace : string) (entities : list entity)
  (error warn : list string) : py (list string * list string) :=
  match entities with
  | [] => Return (error, warn)
  | e :: rest =>
      if isOWLAnnotationProperty e then
        check_entities namespace rest error warn
      else if is_obsolete_entity e then
        check_entities namespace rest error warn
      else
        let iri := lower (getIRI e) in
        match check_uri namespace iri with
        | Raises x => Raises x
        | Return CError =>
            check_entities namespace rest (error ++ [iri]) warn
        | Return CWarn =>
            check_entities namespace rest error (warn ++ [iri])
        | Return CTrue => check_entities namespace rest error warn
        end
  end.

(** [has_valid_uris]; [ontology] is [None] or the list of its entities. *)
Definition has_valid_uris (namespace : string)
  (ontology : option (list entity))
  : py (option (list string) * gmap string string) :=
  match ontology with
  | None =>
      Return (None, status_comment "INFO" "Unable to load ontology")
  | Some entities =>
      match check_entities namespace entities [] [] with
      | Raises x => Raises x
      | Return (error, warn) =>
          Return (save_invalid_uris namespace error warn)
      end
  end.

End Check.

End FP003.

(** ** The pipeline ([util/dashboard_config.py]) *)

Module Pipeline.

(** *** YAML values and the Python operations on them *)

(** What [yaml.load] returns and [save_yaml] accepts. A mapping is keyed
    by strings; a float carries its value as a rational. *)
Inductive yval :=
| VNone
| VBool (b : bool)
| VInt (z : Z)
| VFloat (q : Q)
| VStr (s : string)
| VList (l : list yval)
| VDict (d : gmap string yval).

(** A Result Record ([ont_results]) is a Python [dict]. *)
Abbreviation record := (gmap string yval).

(** [v[k]]: [None] stands for the [KeyError] or [TypeError] it raises. *)
Definition subscript (v : yval) (k : string) : option yval :=
  match v with
  | VDict d => d !! k
  | _ => None
  end.

(** The truth value of [v] ([if v], [not v]). *)
Definition truthy (v : yval) : bool :=
  match v with
  | VNone => false
  | VBool b => b
  | VInt z => negb (z =? 0)
  | VFloat q => negb (Qeq_bool q (0 # 1))
  | VStr s => negb (String.eqb s "")
  | VList l => (0 <? length l)%nat
  | VDict d => (0 <? size d)%nat
  end.

(** [v < 1]: [None] stands for the [TypeError] of an unordered pair. *)
Definition lt_one (v : yval) : option bool :=
  match v with
  | VBool b => Some (negb b)
  | VInt z => Some (z <? 1)
  | VFloat q => Some (negb (Qle_bool (1 # 1) q))
  | _ => None
  end.

(** [v == True]. *)
Definition eq_True (v : yval) : bool :=
  match v with
  | VBool b => b
  | VInt z => z =? 1
  | VFloat q => Qeq_bool q (1 # 1)
  | _ => false
  end.

(** [v == h] for a [str] [h]. *)
Definition eq_str (v : yval) (h : string) : bool :=
  match v with
  | VStr s => String.eqb s h
  | _ => false
  end.

Definition as_str (v : yval) : option string :=
  match v with
  | VStr s => Some s
  | _ => None
  end.

Fixpoint chars (s : string) : list string :=
  match s with
  | EmptyString => []
  | String c rest => String c EmptyString :: chars rest
  end.

(** [for k in v], for the values whose items serve as prefixes: the keys
    of a mapping (in the order of the finite map: the order of the keys
    only decides in which order the lists of [ontology_use] grow), the
    items of a sequence of strings, the characters of a string. [None]
    stands for the [TypeError] of a value that cannot be iterated; a
    sequence with an item that is not a string is outside the model and is
    given [None] as well. *)
Definition iter_keys (v : yval) : option (list string) :=
  match v with
  | VDict d => Some (fst <$> map_to_list d)
  | VList l => mapM as_str l
  | VStr s => Some (chars s)
  | _ => None
  end.

(** *** The functions of [lib] that the pipeline imports

    [lib.py] is not part of the sources at hand; its pure functions are
    the fields of this class. *)
Class Lib := {
  (** [sha256sum(path)], from the lines of the file at [path] *)
  sha256sum : list string → string;
  (** [get_base_prefixes(curie_map, base_namespaces)]; [None] when it raises *)
  get_base_prefixes : yval → list string → option (list string);
  (** [compute_percentage_reused_entities(entity_counts, base_prefixes)] *)
  compute_percentage_reused_entities : yval → list string → option yval;
  (** [round_float(x)] *)
  round_float : Q → Q;
  (** [float(s)] on a [str]; [None] when it raises [ValueError] *)
  float_of_str : string → option Q;
}.

(** Modelled from the spec: [lib.get_hours_since] is not under [src/];
    the spec (4.1) compares the age of a file in hours with the configured
    thresholds. Time stamps are whole hours. *)
Definition get_hours_since (now modified_timestamp : Z) : Z :=
  now - modified_timestamp.

(** *** Configuration, registry, files *)

(** The three settings of [DashboardConfig] that [prepare_ontologies] reads. *)
Record config := {
  is_skip_existing : bool;
  get_redownload_after_hours : Z;
  get_force_regenerate_dashboard_after_hours : Z;
}.

(** [ontologies[o]]: a missing key is [None]. *)
Record registry_entry := {
  mirror_from : option string;
  base_ns : option (list string);
}.

(** The files of one ontology [o]:
    - [ont_path], [build/ontologies/{o}-raw.owl]: modification time, lines;
    - [ont_base_path], [build/ontologies/{o}.owl]: modification time;
    - [ont_metrics_path], [build/ontologies/{o}-metrics.yml]: what
      [load_yaml] gives, [None] when it raises;
    - [ont_results_path], [dashboard/{o}/dashboard.yml]: likewise.
    An outer [None] is a file that does not exist. *)
Record ont_files := {
  ont_path : option (Z * list string);
  ont_base_path : option Z;
  ont_metrics_path : option (option yval);
  ont_results_path : option (option record);
}.

Definition no_files : ont_files :=
  {| ont_path := None; ont_base_path := None;
     ont_metrics_path := None; ont_results_path := None |}.

Definition set_ont_path (x : option (Z * list string)) (f : ont_files) :=
  {| ont_path := x; ont_base_path := ont_base_path f;
     ont_metrics_path := ont_metrics_path f;
     ont_results_path := ont_results_path f |}.
Definition set_ont_base_path (x : option Z) (f : ont_files) :=
  {| ont_path := ont_path f; ont_base_path := x;
     ont_metrics_path := ont_metrics_path f;
     ont_results_path := ont_results_path f |}.
Definition set_ont_metrics_path (x : option (option yval)) (f : ont_files) :=
  {| ont_path := ont_path f; ont_base_path := ont_base_path f;
     ont_metrics_path := x;
     ont_results_path := ont_results_path f |}.
Definition set_ont_results_path (x : option (option record)) (f : ont_files) :=
  {| ont_path := ont_path f; ont_base_path := ont_base_path f;
     ont_metrics_path := ont_metrics_path f;
     ont_results_path := x |}.

(** *** What the outside does during one run *)

(** [robot_prepare_ontology]: whether it raises, whether it writes the
    base file, and the metrics file it writes ([None]: it writes none). *)
Record robot_outcome := {
  robot_raises : bool;
  robot_writes_base : bool;
  robot_writes_metrics : option (option yval);
}.

(** For one ontology: what [urllib.request.urlretrieve] fetches ([None]:
    it raises), what the toolchain does, and whether
    [make dashboard.html] succeeds. *)
Record outside := {
  urlretrieve : option (list string);
  robot_prepare_ontology : robot_outcome;
  make_dashboard_html : bool;
}.

(** The external calls and the stages of a run, in order. *)
Inductive event :=
| Urlretrieve (o : string)
| Sha256sum (o : string)
| VerifyHead (o : string)
| RobotPrepare (o : string)
| ReadMetrics (o : string)
| SanityGate (o : string)
| SaveYaml (o : string) (r : record)
| Aggregate (o : string)
| MakeHtml (o : string).

(** The state of a run: the files of every ontology, the dictionary
    [ontology_use], and the events so far. *)
Record world := {
  files : gmap string ont_files;
  ontology_use : gmap string (list string);
  trace : list event;
}.

(** The state in which [prepare_ontologies] starts: [ontology_use = {}]. *)
Definition initial_world (disk : gmap string ont_files) : world :=
  {| files := disk; ontology_use := ∅; trace := [] |}.

Definition files_of (o : string) (w : world) : ont_files :=
  default no_files (files w !! o).

(** The record that [dashboard/{o}/dashboard.yml] holds. *)
Definition persisted (o : string) (w : world) : option record :=
  ont_results_path (files_of o w) ≫= id.

(** *** Control: normal completion, [continue], uncaught exception *)

Inductive res (A : Type) :=
| Ok (a : A) (w : world)
| Continue (w : world)
| Uncaught (w : world).
Arguments Ok {A} a w.
Arguments Continue {A} w.
Arguments Uncaught {A} w.

Definition M (A : Type) : Type := world → res A.

Definition ret {A} (a : A) : M A := λ w, Ok a w.
Definition bind {A B} (m : M A) (k : A → M B) : M B :=
  λ w, match m w with
       | Ok a w' => k a w'
       | Continue w' => Continue w'
       | Uncaught w' => Uncaught w'
       end.
Definition continue {A} : M A := λ w, Continue w.
Definition uncaught {A} : M A := λ w, Uncaught w.

Notation "'do' x <- m ; k" := (bind m (λ x, k))
  (at level 10, x name, m at level 100, k at level 200, only parsing).
Notation "m ;; k" := (bind m (λ _, k))
  (at level 100, k at level 200, right associativity, only parsing).

Definition completed {A} (r : res A) : bool :=
  match r with
  | Ok _ _ => true
  | _ => false
  end.

Definition world_of {A} (r : res A) : world :=
  match r with
  | Ok _ w | Continue w | Uncaught w => w
  end.

(** The three ways a step changes the state. *)
Definition add_event (e : event) (w : world) : world :=
  {| files := files w; ontology_use := ontology_use w;
     trace := trace w ++ [e] |}.

Definition with_files (o : string) (f : ont_files → ont_files) (w : world)
  : world :=
  {| files := <[o := f (files_of o w)]> (files w);
     ontology_use := ontology_use w; trace := trace w |}.

Definition with_ontology_use (u : gmap string (list string)) (w : world)
  : world :=
  {| files := files w; ontology_use := u; trace := trace w |}.

Definition emit (e : event) : M unit := λ w, Ok tt (add_event e w).

Definition get_files (o : string) : M ont_files :=
  λ w, Ok (files_of o w) w.

Definition update_files (o : string) (f : ont_files → ont_files) : M unit :=
  λ w, Ok tt (with_files o f w).

Definition get_ontology_use : M (gmap string (list string)) :=
  λ w, Ok (ontology_use w) w.

Definition put_ontology_use (u : gmap string (list string)) : M unit :=
  λ w, Ok tt (with_ontology_use u w).

(** The events of a trace other than the saved records. *)
Definition is_call (e : event) : bool :=
  match e with
  | SaveYaml _ _ => false
  | _ => true
  end.

Definition calls_of (t : list event) : list event :=
  omap (λ e, if is_call e then Some e else None) t.

(** [emits P m]: whatever the state, [m] only adds events, and the events
    it adds satisfy [P]. *)
Definition emits {A} (P : event → Prop) (m : M A) : Prop :=
  ∀ w, ∃ evs, trace (world_of (m w)) = (trace w ++ evs)%list ∧ Forall P evs.

(** The events of a stage for [o]: it saves records of [o] and makes the
    calls in [allowed], nothing else. *)
Definition quiet (o : string) (allowed : list event) (e : event) : Prop :=
  (∃ r, e = SaveYaml o r) ∨ e ∈ allowed.

(** [save_yaml(ont_results, ont_results_path)]. *)
Definition save_yaml (o : string) (r : record) : M unit :=
  emit (SaveYaml o r) ;;
  update_files o (set_ont_results_path (Some (Some r))).

(** The three lines that end a stage in failure:
    [ont_results['failure'] = tag; save_yaml(...); continue]. *)
Definition fail {A} (o : string) (tag : string) (r : record) : M A :=
  save_yaml o (<["failure" := VStr tag]> r) ;;
  continue.

(** Lines 226-250: the labels of [ont_results['metrics']], in the order
    of the assignments, each with the key of the metrics file it is
    read from. *)
Inductive metric_source :=
| FromKey (k : string)
| PercentageReused.

Definition metric_table : list (string * metric_source) :=
  [ ("Info: Logical consistency", FromKey "consistent");
    ("Entities: Number of unsatisfiable classes",
      FromKey "unsatisfiable_class_count");
    ("Axioms: Number of axioms", FromKey "axiom_count_incl");
    ("Entities: Number of classes", FromKey "class_count_incl");
    ("Entities: Number of object properties",
      FromKey "obj_property_count_incl");
    ("Entities: % of entities reused", PercentageReused);
    ("Info: Usage of namespaces in axioms",
      FromKey "namespace_axiom_count_incl");
    ("Entities: Number of individuals", FromKey "individual_count_incl");
    ("Entities: Number of data properties",
      FromKey "dataproperty_count_incl");
    ("Entities: Number of annotation properties",
      FromKey "annotation_property_count_incl");
    ("Axioms: Breakdown of axiom types", FromKey "axiom_type_count_incl");
    ("Info: Breakdown of OWL class expressions used",
      FromKey "class_expression_count_incl");
    ("Info: Does the ontology fall under OWL 2 DL?", FromKey "owl2_dl");
    ("Info: Syntax", FromKey "syntax") ].

(** A [try] block over a state [A]: it ends, or it raises; either way
    the assignments made so far stay. *)
Inductive tried (A : Type) :=
| Done (a : A)
| Except (a : A).
Arguments Done {A} a.
Arguments Except {A} a.

Section Run.

Context `{Lib}.

Variable cfg : config.
(** The time of the run, in hours. *)
Variable now : Z.

(** *** First pass: one iteration of [for o in ontologies] *)

(** Lines 95-109: the record of the previous run, if any. *)
Definition load_results (o : string) : M record :=
  do f <- get_files o;
  do ont_results <-
    match ont_results_path f with
    | Some loaded =>
        if is_skip_existing cfg then continue
        else match loaded with
             | Some r => ret r
             | None => fail o "corrupted_results_file" ∅
             end
    | None => ret ∅
    end;
  ret (<["namespace" := VStr o]> ont_results).

(** Lines 111-119: the flag [download]. *)
Definition decide_download (f : ont_files) : bool :=
  match ont_base_path f with
  | Some modified_timestamp =>
      if get_hours_since now modified_timestamp
         <? get_redownload_after_hours cfg
      then false else true
  | None => true
  end.

(** Lines 121-139: the download URL, [make_base], the base namespaces. *)
Definition resolve_registry (o : string) (entry : registry_entry)
  (ont_results : record) : M (string * bool * list string) :=
  match mirror_from entry with
  | None => fail o "missing_url" ont_results
  | Some ourl =>
      let make_base := negb (contains (o ++ "-base.") ourl) in
      match base_ns entry with
      | None => fail o "missing_base_namespaces" ont_results
      | Some base_namespaces => ret (ourl, make_base, base_namespaces)
      end
  end.

(** Lines 141-151. *)
Definition download_stage (o : string) (out : outside) (download : bool)
  (ont_results : record) : M unit :=
  if download then
    emit (Urlretrieve o) ;;
    match urlretrieve out with
    | Some lines => update_files o (set_ont_path (Some (now, lines)))
    | None => fail o "failed_download" ont_results
    end
  else ret tt.

(** Lines 153-163: [sha256_hash], [None] when it is not computed;
    [sha256sum] raises when there is no file at [ont_path]. *)
Definition hash_stage (o : string) (download : bool)
  (ont_results : record) : M (option string) :=
  if download || negb (bool_decide (is_Some (ont_results !! "sha256_hash")))
  then
    emit (Sha256sum o) ;;
    do f <- get_files o;
    match ont_path f with
    | Some (_, lines) => ret (Some (sha256sum lines))
    | None => fail o "failed_sha256_hash" ont_results
    end
  else ret None.

(** Lines 165-179: the value of [ont_results['changed']]. *)
Definition decide_changed (f : ont_files) (ont_results : record)
  (sha256_hash : option string) : bool :=
  match ont_results !! "sha256_hash" with
  | Some stored =>
      match sha256_hash with
      | Some h =>
          if negb (String.eqb h "") && eq_str stored h then
            match ont_path f with
            | Some (modified_timestamp, _) =>
                if get_force_regenerate_dashboard_after_hours cfg
                   <=? get_hours_since now modified_timestamp
                then true else false
            | None => true
            end
          else true
      | None => true
      end
  | None => true
  end.

Definition hash_value (sha256_hash : option string) : yval :=
  match sha256_hash with
  | Some h => VStr h
  | None => VNone
  end.

(** Lines 165-189: the record saved after the comparison of hashes. *)
Definition compare_stage (o : string) (ourl : string) (make_base : bool)
  (sha256_hash : option string) (ont_results : record) : M record :=
  do f <- get_files o;
  let ont_results :=
    <["changed" := VBool (decide_changed f ont_results sha256_hash)]>
      ont_results in
  let ont_results := delete "failure" ont_results in
  let ont_results :=
    <["sha256_hash" := hash_value sha256_hash]> ont_results in
  let ont_results := <["base_generated" := VBool make_base]> ont_results in
  let ont_results := <["mirror_from" := VStr ourl]> ont_results in
  save_yaml o ont_results ;;
  ret ont_results.

(** Lines 196-203: [true] when the [try] block ends without exception. *)
Definition head_is_ontology (raw : option (Z * list string)) : bool :=
  match raw with
  | None => false
  | Some (_, lines) =>
      if (length lines <? 10)%nat then false
      else negb (existsb (contains "ListBucketResult") (take 10 lines))
  end.

(** The effect of [robot_prepare_ontology] on the files. *)
Definition robot_writes (r : robot_outcome) (f : ont_files) : ont_files :=
  let f := if robot_writes_base r
           then set_ont_base_path (Some now) f else f in
  match robot_writes_metrics r with
  | Some m => set_ont_metrics_path (Some m) f
  | None => f
  end.

(** The right-hand side of one assignment: [m] is [metrics['metrics']];
    [None] stands for the exception it raises. *)
Definition metric_value (m : yval) (base_prefixes : list string)
  (src : metric_source) : option yval :=
  match src with
  | FromKey k => subscript m k
  | PercentageReused =>
      subscript m "namespace_entity_count_incl" ≫=
        λ counts, compute_percentage_reused_entities counts base_prefixes
  end.

Fixpoint fill_metrics (m : yval) (base_prefixes : list string)
  (table : list (string * metric_source)) (block : record)
  : tried record :=
  match table with
  | [] => Done block
  | (label, src) :: rest =>
      match metric_value m base_prefixes src with
      | Some v => fill_metrics m base_prefixes rest (<[label := v]> block)
      | None => Except block
      end
  end.

(** Lines 254-256, for one pair [(base_prefix, used_prefix)]. *)
Definition use_append (base_prefix : string)
  (u : gmap string (list string)) (used_prefix : string)
  : gmap string (list string) :=
  <[used_prefix := (default [] (u !! used_prefix) ++ [base_prefix])%list]> u.

(** Lines 252-256: the two nested loops; [used] is
    [ont_results['metrics']['Info: Usage of namespaces in axioms']]. *)
Definition record_use (base_prefixes : list string) (used : yval)
  (u : gmap string (list string)) : option (gmap string (list string)) :=
  match base_prefixes with
  | [] => Some u
  | _ :: _ =>
      match iter_keys used with
      | None => None
      | Some used_prefixes =>
          Some (foldl (λ u base_prefix,
                         foldl (use_append base_prefix) u used_prefixes)
                      u base_prefixes)
      end
  end.

(** Lines 222-256: the [try] block of the metrics stage. *)
Definition read_metrics (loaded : option yval)
  (base_namespaces : list string) (ont_results : record)
  (u : gmap string (list string))
  : tried (record * gmap string (list string)) :=
  match loaded with
  | None => Except (ont_results, u)
  | Some metrics =>
      match subscript metrics "metrics" with
      | None => Except (ont_results, u)
      | Some m =>
          match subscript m "curie_map" ≫=
                  λ curie_map, get_base_prefixes curie_map base_namespaces
          with
          | None => Except (ont_results, u)
          | Some base_prefixes =>
              let ont_results :=
                <["base_prefixes" := VList (VStr <$> base_prefixes)]>
                  ont_results in
              match fill_metrics m base_prefixes metric_table ∅ with
              | Except block =>
                  Except (<["metrics" := VDict block]> ont_results, u)
              | Done block =>
                  let ont_results :=
                    <["metrics" := VDict block]> ont_results in
                  match
                    block !! "Info: Usage of namespaces in axioms" ≫=
                      λ used, record_use base_prefixes used u
                  with
                  | Some u' => Done (ont_results, u')
                  | None => Except (ont_results, u)
                  end
              end
          end
      end
  end.

(** Lines 220-267. *)
Definition metrics_stage (o : string) (base_namespaces : list string)
  (ont_results : record) : M record :=
  do f <- get_files o;
  match ont_metrics_path f with
  | Some loaded =>
      emit (ReadMetrics o) ;;
      do u <- get_ontology_use;
      match read_metrics loaded base_namespaces ont_results u with
      | Done (ont_results, u') =>
          put_ontology_use u' ;; ret ont_results
      | Except (ont_results, u') =>
          put_ontology_use u' ;;
          fail o "broken_metrics_file" ont_results
      end
  | None => fail o "missing_metrics_file" ont_results
  end.

(** Line 192: whether the rest of the code runs; [None] stands for the
    [KeyError] of a record without ['changed']. *)
Definition must_regenerate (f : ont_files) (ont_results : record)
  : option bool :=
  ont_results !! "changed" ≫= λ c,
    Some (eq_True c
          || negb (bool_decide (is_Some (ont_metrics_path f)))
          || negb (bool_decide (is_Some (ont_base_path f)))).

(** Lines 191-269. *)
Definition regenerate_stage (o : string) (out : outside)
  (base_namespaces : list string) (ont_results : record) : M record :=
  do f <- get_files o;
  match must_regenerate f ont_results with
  | None => uncaught
  | Some true =>
      emit (VerifyHead o) ;;
      if head_is_ontology (ont_path f) then
        emit (RobotPrepare o) ;;
        update_files o (robot_writes (robot_prepare_ontology out)) ;;
        if robot_raises (robot_prepare_ontology out)
        then fail o "failed_robot_base" ont_results
        else metrics_stage o base_namespaces ont_results
      else fail o "not_an_ontology" ont_results
  | Some false => ret ont_results
  end.

(** Lines 271-290: the check on the number of axioms and on consistency,
    and the last [save_yaml] of the iteration. *)
Definition sanity_gate (o : string) (ont_results : record) : M unit :=
  emit (SanityGate o) ;;
  match ont_results !! "metrics" ≫=
          λ m, subscript m "Axioms: Number of axioms" ≫= lt_one
  with
  | None => fail o "missing_metrics" ont_results
  | Some true => fail o "empty_ontology" ont_results
  | Some false =>
      match ont_results !! "metrics" ≫=
              λ m, subscript m "Info: Logical consistency"
      with
      | None => fail o "missing_metrics" ont_results
      | Some consistent =>
          if negb (truthy consistent)
          then fail o "inconsistent_ontology" ont_results
          else save_yaml o ont_results
      end
  end.

(** Lines 95-189: from the record of the previous run to the record
    saved after the comparison of hashes; the base namespaces go on to
    the toolchain. *)
Definition detect_change (o : string) (entry : registry_entry)
  (out : outside) : M (record * list string) :=
  do ont_results <- load_results o;
  do f <- get_files o;
  let download := decide_download f in
  do resolved <- resolve_registry o entry ont_results;
  let '(ourl, make_base, base_namespaces) := resolved in
  download_stage o out download ont_results ;;
  do sha256_hash <- hash_stage o download ont_results;
  do ont_results <- compare_stage o ourl make_base sha256_hash ont_results;
  ret (ont_results, base_namespaces).

(** Lines 82-290: the body of the first loop. *)
Definition prepare_ontology (o : string) (entry : registry_entry)
  (out : outside) : M unit :=
  do detected <- detect_change o entry out;
  do ont_results <- regenerate_stage o out detected.2 detected.1;
  sanity_gate o ont_results.

(** A [for] loop whose body may [continue] or raise. *)
Fixpoint for_each {A} (body : A → M unit) (items : list A) : M unit :=
  match items with
  | [] => ret tt
  | x :: rest =>
      λ w, match body x w with
           | Ok _ w' | Continue w' => for_each body rest w'
           | Uncaught w' => Uncaught w'
           end
  end.

(** *** Second pass: one iteration of the loop of lines 294-334 *)

(** [float(v)]; [None] stands for the exception it raises. *)
Definition py_float (v : yval) : option Q :=
  match v with
  | VBool b => Some ((if b then 1 else 0) # 1)
  | VInt z => Some (z # 1)
  | VFloat q => Some q
  | VStr s => float_of_str s
  | _ => None
  end.

(** [x / n] for a float [x] and the length [n] of a container; [None]
    stands for [ZeroDivisionError]. *)
Definition py_div (x : Q) (n : nat) : option Q :=
  match n with
  | O => None
  | S _ => Some (Qdiv x (Z.of_nat n # 1))
  end.

(** Lines 304-308: the list [uses] before it is made a set; [None]
    stands for the [TypeError] of a ['base_prefixes'] that cannot be
    iterated. *)
Definition collect_uses (ont_results : record)
  (u : gmap string (list string)) : option (list string) :=
  match ont_results !! "base_prefixes" with
  | None => Some []
  | Some base_prefixes =>
      iter_keys base_prefixes ≫= λ ks,
        Some (concat ((λ base_prefix, default [] (u !! base_prefix))
                        <$> ks))
  end.

(** Line 309 and the [len] of line 311: [len(list(set(uses)))]. *)
Definition count_uses (uses : list string) : nat :=
  size (list_to_set uses : gset string).

(** Lines 311-315: the metrics block with the number of users and the
    two scores; [n] is [len(ontologies)]. *)
Definition score_metrics (n : nat) (uses : list string) (block : record)
  : option record :=
  let count := count_uses uses in
  let block :=
    <["Info: How many ontologies use it?" := VInt (Z.of_nat count)]>
      block in
  match py_div (Z.of_nat count # 1) n with
  | None => None
  | Some impact =>
      match block !! "Entities: % of entities reused" ≫= py_float with
      | None => None
      | Some reused =>
          match py_div reused 100 with
          | None => None
          | Some reuse =>
              let dashboard_score : record :=
                <["_reuse" := VFloat (round_float reuse)]>
                  (<["_impact" := VFloat (round_float impact)]> ∅) in
              Some (<["Info: Experimental OBO score" :=
                        VDict dashboard_score]> block)
          end
      end
  end.

(** Line 321: whether the dashboard page is built; [None] stands for
    the [KeyError] of a record without ['changed']. *)
Definition must_render (ont_results : record) : option bool :=
  ont_results !! "changed" ≫= λ c,
    Some ((eq_True c
           || negb (bool_decide (is_Some (ont_results !! "results"))))
          && negb (bool_decide (is_Some (ont_results !! "failure")))).

(** Lines 295-334. *)
Definition aggregate_ontology (n : nat) (o : string) (out : outside)
  : M unit :=
  do f <- get_files o;
  match ont_results_path f with
  | None => ret tt
  | Some loaded =>
      if is_skip_existing cfg then continue
      else
        match loaded with
        | None => uncaught
        | Some ont_results =>
            match ont_results !! "metrics" with
            | None => ret tt
            | Some metrics =>
                emit (Aggregate o) ;;
                do u <- get_ontology_use;
                match collect_uses ont_results u with
                | None => uncaught
                | Some uses =>
                    match metrics with
                    | VDict block =>
                        match score_metrics n uses block with
                        | None => uncaught
                        | Some block' =>
                            let ont_results :=
                              <["metrics" := VDict block']> ont_results in
                            save_yaml o ont_results ;;
                            match must_render ont_results with
                            | None => uncaught
                            | Some true =>
                                emit (MakeHtml o) ;;
                                if make_dashboard_html out then ret tt
                                else fail o "failed_ontology_dashboard"
                                       ont_results
                            | Some false => ret tt
                            end
                        end
                    | _ => uncaught
                    end
                end
            end
        end
  end.

(** *** [prepare_ontologies]

    [ontologies] is the registry in the order of its keys; [env] says
    what the outside does for each ontology during this run. The run
    starts with an empty [ontology_use]. *)
Definition first_pass (ontologies : list (string * registry_entry))
  (env : string → outside) : M unit :=
  for_each (λ '(o, entry), prepare_ontology o entry (env o)) ontologies.

Definition second_pass (ontologies : list (string * registry_entry))
  (env : string → outside) : M unit :=
  for_each (λ '(o, _), aggregate_ontology (length ontologies) o (env o))
           ontologies.

Definition prepare_ontologies (ontologies : list (string * registry_entry))
  (env : string → outside) (disk : gmap string ont_files) : res unit :=
  (first_pass ontologies env ;; second_pass ontologies env)
    (initial_world disk).

(** *** The download rule as the specification words it

    "Skip download when a previously-downloaded file exists and its age
    is below a configured redownload-after threshold": the downloaded
    file is [ont_path]. To be compared with [decide_download]. *)
Definition spec_skip_download (f : ont_files) : bool :=
  match ont_path f with
  | Some (modified_timestamp, _) =>
      get_hours_since now modified_timestamp
      <? get_redownload_after_hours cfg
  | None => false
  end.

End Run.

End Pipeline.

(** ** Concrete runs

    A registry, a configuration and outside behaviours on which the
    pipeline is evaluated. *)

Module Scenario.

Import Pipeline.

(** A stand-in for [lib.py]: the hash of a file is the text of its lines,
    the base prefixes are the prefixes of the CURIE map whose namespace is
    a base namespace, and nothing is rounded. *)
Definition fixture_lib : Lib := {|
  sha256sum := String.concat "|";
  get_base_prefixes := λ curie_map base_namespaces,
    match curie_map with
    | VDict d =>
        Some (omap (λ kv, match snd kv with
                          | VStr ns =>
                              if bool_decide (ns ∈ base_namespaces)
                              then Some (fst kv) else None
                          | _ => None
                          end)
                   (map_to_list d))
    | _ => None
    end;
  compute_percentage_reused_entities := λ _ _, Some (VFloat (25 # 1));
  round_float := Qred;
  float_of_str := λ _, None;
|}.

Definition cfg : config :=
  {| is_skip_existing := false;
     get_redownload_after_hours := 24;
     get_force_regenerate_dashboard_after_hours := 24 |}.

Definition obo (s : string) : string := "http://purl.obolibrary.org/obo/" ++ s.

Definition foo_entry : registry_entry :=
  {| mirror_from := Some (obo "foo.owl"); base_ns := Some [obo "FOO_"] |}.

Definition bar_entry : registry_entry :=
  {| mirror_from := Some (obo "bar.owl");
     base_ns := Some [obo "BAR_"; obo "BARX_"] |}.

Definition only_foo : list (string * registry_entry) := [("foo", foo_entry)].
Definition foo_and_bar : list (string * registry_entry) :=
  [("foo", foo_entry); ("bar", bar_entry)].

(** A metrics file as the toolchain writes it. *)
Definition metrics_file (axioms : Z) (consistent : bool)
  (curie_map usage : list (string * yval)) : yval :=
  VDict {[ "metrics" := VDict (list_to_map [
    ("consistent", VBool consistent);
    ("unsatisfiable_class_count", VInt 0);
    ("axiom_count_incl", VInt axioms);
    ("class_count_incl", VInt 7);
    ("obj_property_count_incl", VInt 0);
    ("namespace_entity_count_incl", VDict (list_to_map usage));
    ("namespace_axiom_count_incl", VDict (list_to_map usage));
    ("individual_count_incl", VInt 0);
    ("dataproperty_count_incl", VInt 0);
    ("annotation_property_count_incl", VInt 2);
    ("axiom_type_count_incl", VDict ∅);
    ("class_expression_count_incl", VDict ∅);
    ("owl2_dl", VBool true);
    ("syntax", VStr "RDF/XML Syntax");
    ("curie_map", VDict (list_to_map curie_map)) ]) ]}.

Definition foo_metrics (axioms : Z) (consistent : bool) : yval :=
  metrics_file axioms consistent
    [("FOO", VStr (obo "FOO_"))] [("FOO", VInt 40)].

Definition bar_metrics : yval :=
  metrics_file 12 true
    [("BAR", VStr (obo "BAR_")); ("BARX", VStr (obo "BARX_"));
     ("FOO", VStr (obo "FOO_"))]
    [("BAR", VInt 9); ("FOO", VInt 3)].

(** Ten lines of an ontology, and ten lines of the error page of a
    storage bucket. *)
Definition owl_lines : list string :=
  "<?xml version='1.0'?>" :: replicate 9 "<owl:Class/>".
Definition bucket_lines : list string :=
  "<?xml version='1.0'?>" :: "<ListBucketResult>" :: replicate 8 "<Contents/>".

Definition robot_ok (metrics : yval) : robot_outcome :=
  {| robot_raises := false; robot_writes_base := true;
     robot_writes_metrics := Some (Some metrics) |}.
Definition robot_fails : robot_outcome :=
  {| robot_raises := true; robot_writes_base := false;
     robot_writes_metrics := None |}.

Definition outside_with (fetched : option (list string))
  (robot : robot_outcome) : outside :=
  {| urlretrieve := fetched; robot_prepare_ontology := robot;
     make_dashboard_html := true |}.

(** The source serves an ontology and the toolchain succeeds. *)
Definition healthy (o : string) : outside :=
  outside_with (Some owl_lines)
    (robot_ok (if String.eqb o "bar" then bar_metrics
               else foo_metrics 40 true)).
(** The source cannot be reached. *)
Definition offline (o : string) : outside :=
  outside_with None (robot_ok (foo_metrics 40 true)).
(** The source serves the error page of the bucket. *)
Definition misconfigured (o : string) : outside :=
  outside_with (Some bucket_lines) (robot_ok (foo_metrics 40 true)).
(** The toolchain raises and writes nothing. *)
Definition broken_toolchain (o : string) : outside :=
  outside_with (Some owl_lines) robot_fails.
(** The toolchain reports an ontology without axioms, and consistent. *)
Definition empty (o : string) : outside :=
  outside_with (Some owl_lines) (robot_ok (foo_metrics 0 true)).

(** A run of [prepare_ontologies] at time [now] and the disk it leaves. *)
Definition run (now : Z) (ontologies : list (string * registry_entry))
  (env : string → outside) (disk : gmap string ont_files) : res unit :=
  @prepare_ontologies fixture_lib cfg now ontologies env disk.

Definition disk_after (r : res unit) : gmap string ont_files :=
  files (world_of r).

(** The events of a run other than [SaveYaml]. *)
Definition calls (r : res unit) : list event :=
  calls_of (trace (world_of r)).

(** A field of the record persisted for ["foo"], and of its metrics. *)
Definition field (k : string) (r : res unit) : option yval :=
  persisted "foo" (world_of r) ≫= λ rec, rec !! k.
Definition metric (k : string) (r : res unit) : option yval :=
  field "metrics" r ≫= λ m, subscript m k.

(** Two runs an hour apart, the source healthy and unchanged. *)
Definition first_run : res unit := run 100 only_foo healthy ∅.
Definition second_run : res unit :=
  run 101 only_foo healthy (disk_after first_run).

(** A healthy run, then the source offline after the redownload window. *)
Definition offline_run : res unit :=
  run 200 only_foo offline (disk_after first_run).

(** A healthy run, then twice the error page of the bucket. *)
Definition bucket_run : res unit :=
  run 200 only_foo misconfigured (disk_after first_run).
Definition bucket_rerun : res unit :=
  run 300 only_foo misconfigured (disk_after bucket_run).

(** The toolchain fails, and the next run an hour later. *)
Definition toolchain_failure : res unit := run 100 only_foo broken_toolchain ∅.
Definition retry_run : res unit :=
  run 101 only_foo healthy (disk_after toolchain_failure).

(** The source offline, and healthy an hour later. *)
Definition failed_download_run : res unit := run 100 only_foo offline ∅.
Definition recovered_run : res unit :=
  run 101 only_foo healthy (disk_after failed_download_run).

(** An ontology without axioms: the whole run, and its first pass. *)
Definition empty_run : res unit := run 100 only_foo empty ∅.
Definition empty_first_pass : res unit :=
  @first_pass fixture_lib cfg 100 only_foo empty (initial_world ∅).

(** Two ontologies; ["bar"] has two base prefixes and uses [FOO]. *)
Definition two_ontologies : res unit := run 100 foo_and_bar healthy ∅.

End Scenario.

(** ** More Python strings *)

(** [str.isspace()] on one ASCII character. *)
Definition is_space (c : ascii) : bool :=
  let n := nat_of_ascii c in
  ((9 <=? n)%nat && (n <=? 13)%nat)
  || ((28 <=? n)%nat && (n <=? 32)%nat).

(** [str.strip()], on ASCII white space. *)
Fixpoint lstrip (s : string) : string :=
  match s with
  | EmptyString => EmptyString
  | String c rest => if is_space c then lstrip rest else s
  end.

Fixpoint rstrip (s : string) : string :=
  match s with
  | EmptyString => EmptyString
  | String c rest =>
      match rstrip rest with
      | EmptyString => if is_space c then EmptyString else String c EmptyString
      | rest' => String c rest'
      end
  end.

Definition strip (s : string) : string := rstrip (lstrip s).

(** [s.endswith(suffix)]. *)
Fixpoint endswith (s suffix : string) : bool :=
  String.eqb s suffix ||
  match s with
  | EmptyString => false
  | String _ rest => endswith rest suffix
  end.

(** The truth value of a [str]. *)
Definition str_truthy (s : string) : bool := negb (String.eqb s "").

(** ['{0}'.format(p)] for a [p] that is a [str] or [None]. *)
Definition format_opt (p : option string) : string := default "None" p.

(** ** FP 3 on a big ontology ([big_has_valid_uris]) *)

Module Scan.

Import FP003.

(** The local variables of [big_has_valid_uris] that live across lines. *)
Record scan := {
  error : list string;
  warn : list string;
  prefixes : bool;
  header : bool;
  valid : bool;
  owl : option string;
  rdf : option string;
}.

(** Lines 96-105. *)
Definition start : scan :=
  {| error := []; warn := []; prefixes := true; header := true;
     valid := false; owl := None; rdf := None |}.

(** What one turn of the loop does: it goes on with new variables, or the
    function returns. *)
Inductive turn :=
| GoOn (s : scan)
| Leave (result : gmap string string).

Definition unable_to_parse : gmap string string :=
  status_comment "INFO" "Unable to parse ontology".

Section Big.

(** [re.match(iri_pattern % namespace, iri, re.IGNORECASE)] is not None. *)
Variable re_match : string → string → bool.
(** [dash_utils.get_prefix(line)] and [dash_utils.get_resource_value(line)]:
    [dash_utils] is not part of the sources at hand. *)
Variable get_prefix : string → option string.
Variable get_resource_value : string → string.

(** Lines 110-146: the body of [for line in f]. The first test is
    ['Ontology' and 'about' in line]: the conjunction of the truth value of
    the literal ['Ontology'] and of ['about' in line]. *)
Definition scan_line (namespace : string) (s : scan) (line : string)
  : py turn :=
  if str_truthy "Ontology" && contains "about" line then
    if negb (str_truthy (default "" (owl s)))
       && negb (str_truthy (default "" (rdf s)))
    then Return (Leave unable_to_parse)
    else
      Return (GoOn {| error := error s; warn := warn s; prefixes := false;
                      header := if endswith (strip line) "/>" then false
                                else header s;
                      valid := true; owl := owl s; rdf := rdf s |})
  else if prefixes s && contains "http://www.w3.org/2002/07/owl#" line then
    Return (GoOn {| error := error s; warn := warn s; prefixes := prefixes s;
                    header := header s; valid := valid s;
                    owl := get_prefix line; rdf := rdf s |})
  else if prefixes s
          && contains "http://www.w3.org/1999/02/22-rdf-syntax-ns#" line then
    Return (GoOn {| error := error s; warn := warn s; prefixes := prefixes s;
                    header := header s; valid := valid s;
                    owl := owl s; rdf := get_prefix line |})
  else if header s
          && contains ("</" ++ format_opt (owl s) ++ ":Ontology>") line then
    Return (GoOn {| error := error s; warn := warn s; prefixes := prefixes s;
                    header := false; valid := valid s;
                    owl := owl s; rdf := rdf s |})
  else if negb (header s)
          && contains (format_opt (rdf s) ++ ":about") line
          && negb (contains (format_opt (owl s) ++ ":AnnotationProperty")
                            line) then
    let iri := lower (get_resource_value line) in
    match check_uri re_match namespace iri with
    | Raises x => Raises x
    | Return CError =>
        Return (GoOn {| error := (error s ++ [iri])%list; warn := warn s;
                        prefixes := prefixes s; header := header s;
                        valid := valid s; owl := owl s; rdf := rdf s |})
    | Return CWarn =>
        Return (GoOn {| error := error s; warn := (warn s ++ [iri])%list;
                        prefixes := prefixes s; header := header s;
                        valid := valid s; owl := owl s; rdf := rdf s |})
    | Return CTrue => Return (GoOn s)
    end
  else Return (GoOn s).

(** The loop over the lines of the file. *)
Fixpoint scan_lines (namespace : string) (s : scan) (lines : list string)
  : py turn :=
  match lines with
  | [] => Return (GoOn s)
  | line :: rest =>
      match scan_line namespace s line with
      | Return (GoOn s') => scan_lines namespace s' rest
      | stop => stop
      end
  end.

(** [big_has_valid_uris(namespace, file)], for a file that can be opened:
    the report written, if any, and the returned dictionary. *)
Definition big_has_valid_uris (namespace : string) (file : list string)
  : py (option (list string) * gmap string string) :=
  match scan_lines namespace start file with
  | Raises x => Raises x
  | Return (Leave result) => Return (None, result)
  | Return (GoOn s) =>
      if negb (valid s) then Return (None, unable_to_parse)
      else Return (save_invalid_uris namespace (error s) (warn s))
  end.

End Big.

End Scan.

(** ** FP 4, versioning ([util/dashboard/fp_004.py]) *)

Module FP004.

Import FP003.

(** ['Version IRI \'{0}\' is not in recommended format'.format(iri)]. *)
Definition bad_format (iri : string) : string :=
  "Version IRI '" ++ iri ++ "' is not in recommended format".
Definition missing_version : string := "Missing version IRI".

(** The regular expression [pat],
    [http:\/\/purl\.obolibrary\.org/obo/.*/([0-9]{4}-[0-9]{2}-[0-9]{2})/.*],
    read from left to right. *)

Definition purl : string := "http://purl.obolibrary.org/obo/".

(** [[0-9]]. *)
Definition is_digit (c : ascii) : bool :=
  let n := nat_of_ascii c in (48 <=? n)%nat && (n <=? 57)%nat.

(** [.], which matches every character but the line feed. *)
Definition is_dot (c : ascii) : bool := negb (nat_of_ascii c =? 10)%nat.

(** A literal character of the pattern. *)
Definition is_char (c : ascii) (c' : ascii) : bool := Ascii.eqb c c'.

(** [s] begins with one character of each of the classes [cs], in order:
    what is left of [s]. *)
Fixpoint classes (cs : list (ascii → bool)) (s : string) : option string :=
  match cs with
  | [] => Some s
  | cl :: cs' =>
      match s with
      | String c rest => if cl c then classes cs' rest else None
      | EmptyString => None
      end
  end.

(** [/([0-9]{4}-[0-9]{2}-[0-9]{2})/]. *)
Definition slash_date_slash : list (ascii → bool) :=
  [ is_char "/"; is_digit; is_digit; is_digit; is_digit;
    is_char "-"; is_digit; is_digit;
    is_char "-"; is_digit; is_digit; is_char "/" ]%char.

(** [s] begins with a match of [.*/([0-9]{4}-[0-9]{2}-[0-9]{2})/.*]; the
    final [.*] matches whatever follows the date. *)
Fixpoint dated_tail (s : string) : bool :=
  bool_decide (is_Some (classes slash_date_slash s)) ||
  match s with
  | String c rest => is_dot c && dated_tail rest
  | EmptyString => false
  end.

(** A match of [pat] begins at the start of [s]. *)
Definition match_here (s : string) : bool :=
  match classes (is_char <$> list_ascii_of_string purl) s with
  | Some rest => dated_tail rest
  | None => false
  end.

(** [PATTERN.search(s)] is not [None]: a match begins somewhere in [s]. *)
Fixpoint search (s : string) : bool :=
  match_here s ||
  match s with
  | String _ rest => search rest
  | EmptyString => false
  end.

Section Versioning.

(** [lib.url_exists(url)]: [lib] is not part of the sources at hand. *)
Variable url_exists : string → bool.
(** [dash_utils.get_big_version_iri(file)]: [None], the empty string or the
    version IRI; [dash_utils] is not part of the sources at hand. *)
Variable get_big_version_iri : list string → option string.

(** Lines 60-71 and 92-101, which the two functions share but for the
    test of an absent version IRI. *)
Definition check_version_iri (version_iri : string) : gmap string string :=
  if negb (url_exists version_iri)
  then status_comment "ERROR" "Version IRI does not resolve"
  else if negb (search version_iri)
  then status_comment "WARN" (bad_format version_iri)
  else status_only "PASS".

(** [has_versioning(ontology)]: [ontology] is [None] or an ontology, of
    which [dash_utils.get_version_iri] gives the version IRI or [None]. *)
Definition has_versioning (ontology : option (option string))
  : gmap string string :=
  match ontology with
  | None => status_comment "ERROR" "Unable to load ontology"
  | Some version_iri =>
      if negb (str_truthy (default "" version_iri))
      then status_comment "ERROR" missing_version
      else check_version_iri (default "" version_iri)
  end.

(** [big_has_versioning(file)]. *)
Definition big_has_versioning (file : list string) : gmap string string :=
  match get_big_version_iri file with
  | None => status_comment "ERROR" "Unable to parse ontology"
  | Some version_iri =>
      if String.eqb version_iri ""
      then status_comment "ERROR" missing_version
      else check_version_iri version_iri
  end.

End Versioning.

End FP004.

(** ** What a step of the pipeline may do *)

Module Contracts.

Import Pipeline.

(** [ends N C U m w]: run from [w], [m] ends normally with a value and a
    state that satisfy [N], or it leaves the iteration by [continue] in a
    state that satisfies [C], or it raises in a state that satisfies [U]. *)
Definition ends {A} (N : A → world → Prop) (C U : world → Prop) (m : M A)
  (w : world) : Prop :=
  match m w with
  | Ok a w' => N a w'
  | Continue w' => C w'
  | Uncaught w' => U w'
  end.

(** [keeps R m]: the state before and the state after [m] are related by
    [R], however [m] ends. *)
Definition keeps {A} (R : world → world → Prop) (m : M A) : Prop :=
  ∀ w, R w (world_of (m w)).

(** Every list of [ontology_use] is extended at its end, if at all. *)
Definition use_grows (u u' : gmap string (list string)) : Prop :=
  ∀ k, default [] (u !! k) `prefix_of` default [] (u' !! k).

(** What an iteration for [o] may touch. Events are only added. The files
    of the other ontologies stay. The downloaded file of [o] changes with
    [urlretrieve] only, its base file and its metrics file with the
    toolchain only. [ontology_use] is extended at the end of its lists,
    and only when the metrics of [o] are read. *)
Definition footprint (o : string) (w w' : world) : Prop :=
  trace w `prefix_of` trace w'
  ∧ (∀ o', o' ≠ o → files_of o' w' = files_of o' w)
  ∧ (Urlretrieve o ∉ trace w' →
     ont_path (files_of o w') = ont_path (files_of o w))
  ∧ (RobotPrepare o ∉ trace w' →
     ont_base_path (files_of o w') = ont_base_path (files_of o w)
     ∧ ont_metrics_path (files_of o w') = ont_metrics_path (files_of o w))
  ∧ use_grows (ontology_use w) (ontology_use w')
  ∧ (ReadMetrics o ∉ trace w' → ontology_use w' = ontology_use w).

(** What the first pass as a whole may touch: the files of the ontologies
    of the registry, and [ontology_use] at the end of its lists. *)
Definition first_pass_footprint (names : list string) (w w' : world) : Prop :=
  trace w `prefix_of` trace w'
  ∧ (∀ o, o ∉ names → files_of o w' = files_of o w)
  ∧ use_grows (ontology_use w) (ontology_use w').

(** What the second pass may touch: the results files of the ontologies
    of the registry. *)
Definition second_pass_footprint (names : list string) (w w' : world)
  : Prop :=
  trace w `prefix_of` trace w'
  ∧ ontology_use w' = ontology_use w
  ∧ ∀ o,
      ont_path (files_of o w') = ont_path (files_of o w)
      ∧ ont_base_path (files_of o w') = ont_base_path (files_of o w)
      ∧ ont_metrics_path (files_of o w') = ont_metrics_path (files_of o w)
      ∧ (o ∉ names →
         ont_results_path (files_of o w') = ont_results_path (files_of o w)).

(** The failure tags that the first pass writes. *)
Definition first_pass_tags : list string :=
  [ "corrupted_results_file"; "missing_url"; "missing_base_namespaces";
    "failed_download"; "failed_sha256_hash"; "not_an_ontology";
    "failed_robot_base"; "broken_metrics_file"; "missing_metrics_file";
    "empty_ontology"; "inconsistent_ontology"; "missing_metrics" ].

(** The failure tag of the record persisted for [o]. *)
Definition failure_of (o : string) (w : world) : option yval :=
  persisted o w ≫= λ r, r !! "failure".

(** The record persisted for [o] carries one of the failure tags of the
    first pass. *)
Definition tagged (o : string) (w : world) : Prop :=
  ∃ tag, tag ∈ first_pass_tags ∧ failure_of o w = Some (VStr tag).

(** The iteration for [o] was skipped, nothing done: a results file exists
    and existing results are to be skipped. *)
Definition skipped (cfg : config) (o : string) (w w' : world) : Prop :=
  is_skip_existing cfg = true
  ∧ is_Some (ont_results_path (files_of o w))
  ∧ w' = w.

(** The record persisted for [o] has no failure tag, and its metrics count
    at least one axiom and say that the ontology is consistent. *)
Definition passes_gate (o : string) (w : world) : Prop :=
  ∃ r block axioms consistent,
    persisted o w = Some r
    ∧ r !! "failure" = None
    ∧ r !! "metrics" = Some (VDict block)
    ∧ block !! "Axioms: Number of axioms" = Some axioms
    ∧ lt_one axioms = Some false
    ∧ block !! "Info: Logical consistency" = Some consistent
    ∧ truthy consistent = true.

(** The calls of an iteration of the first pass, and of the second, in
    the order of the code. *)
Definition first_pass_calls (o : string) : list event :=
  [ Urlretrieve o; Sha256sum o; VerifyHead o; RobotPrepare o;
    ReadMetrics o; SanityGate o ].
Definition second_pass_calls (o : string) : list event :=
  [ Aggregate o; MakeHtml o ].

(** [adds calls m]: [m] only adds events, and the calls among them are
    calls of [calls], in that order, each at most once. *)
Definition adds {A} (calls : list event) (m : M A) : Prop :=
  ∀ w, ∃ evs,
    trace (world_of (m w)) = (trace w ++ evs)%list
    ∧ calls_of evs `sublist_of` calls.

(** The [metrics] entry of the record persisted for [o], and one entry
    of that block. *)
Definition metrics_of (o : string) (w : world) : option yval :=
  persisted o w ≫= λ r, r !! "metrics".
Definition metric_of (o k : string) (w : world) : option yval :=
  metrics_of o w ≫= λ m, subscript m k.

(** The entries of a metrics block that the second pass assigns. *)
Definition aggregation_keys : list string :=
  [ "Info: How many ontologies use it?"; "Info: Experimental OBO score" ].

(** How often [k] occurs in [l]. *)
Definition occurrences (k : string) (l : list string) : nat :=
  length (filter (λ x, x = k) l).

(** An entity on which [check_uri] raises: it is checked, and its IRI in
    lower case starts with the namespace and is not the IRI of the
    ontology. *)
Definition offending (namespace : string) (e : FP003.entity) : bool :=
  negb (FP003.isOWLAnnotationProperty e)
  && negb (FP003.is_obsolete_entity e)
  && String.prefix namespace (lower (FP003.getIRI e))
  && negb (String.eqb (lower (FP003.getIRI e)) (FP003.ontology_iri namespace)).

(** Every character of [s] satisfies [p]. *)
Fixpoint string_forall (p : ascii → bool) (s : string) : bool :=
  match s with
  | EmptyString => true
  | String c rest => p c && string_forall p rest
  end.

End Contracts.

(** ** More concrete runs *)

Module Cases.

Import Pipeline Scenario.

(** Existing results are skipped. *)
Definition skip_cfg : config :=
  {| is_skip_existing := true;
     get_redownload_after_hours := 24;
     get_force_regenerate_dashboard_after_hours := 24 |}.

(** The metrics file of a toolchain that reports no consistency. *)
Definition block_without_consistency : yval :=
  VDict (list_to_map [
    ("axiom_count_incl", VInt 40);
    ("curie_map", VDict (list_to_map [("FOO", VStr (obo "FOO_"))])) ]).
Definition metrics_without_consistency : yval :=
  VDict {[ "metrics" := block_without_consistency ]}.

(** A state in which that metrics file is on the disk. *)
Definition with_broken_metrics : world :=
  initial_world
    {[ "foo" := set_ont_metrics_path (Some (Some metrics_without_consistency))
                  no_files ]}.

(** The state a healthy run leaves, at the start of a later run. *)
Definition after_first_run : world := initial_world (disk_after first_run).

(** The state between the two passes of a healthy run. *)
Definition healthy_first_pass : world :=
  world_of (@first_pass fixture_lib cfg 100 only_foo healthy (initial_world ∅)).

(** The state that the bucket page leaves, at the start of a later run. *)
Definition after_bucket_run : world := initial_world (disk_after bucket_run).

(** An ontology without axioms, then the source offline after the
    redownload window. *)
Definition empty_then_offline : res unit :=
  run 200 only_foo offline (disk_after empty_run).

(** The metrics file of a toolchain that counts no axiom and reports no
    syntax, the last of the keys that are read. *)
Definition metrics_without_syntax : yval :=
  VDict {[ "metrics" := VDict (list_to_map [
    ("consistent", VBool true);
    ("unsatisfiable_class_count", VInt 0);
    ("axiom_count_incl", VInt 0);
    ("class_count_incl", VInt 0);
    ("obj_property_count_incl", VInt 0);
    ("namespace_entity_count_incl", VDict ∅);
    ("namespace_axiom_count_incl", VDict ∅);
    ("individual_count_incl", VInt 0);
    ("dataproperty_count_incl", VInt 0);
    ("annotation_property_count_incl", VInt 0);
    ("axiom_type_count_incl", VDict ∅);
    ("class_expression_count_incl", VDict ∅);
    ("owl2_dl", VBool true);
    ("curie_map", VDict (list_to_map [("FOO", VStr (obo "FOO_"))])) ]) ]}.

Definition half_written (o : string) : outside :=
  outside_with (Some owl_lines) (robot_ok metrics_without_syntax).

Definition half_written_run : res unit := run 100 only_foo half_written ∅.

(** The ontology ["foo"] with the two base prefixes [FOO] and [FOOX], and a
    user of both with the two base prefixes [BAR] and [BARX]. *)
Definition two_prefixes : list string := ["FOO"; "FOOX"].
Definition user_prefixes : list string := ["BAR"; "BARX"].
Definition user_usage : yval :=
  VDict (list_to_map [("FOO", VInt 3); ("FOOX", VInt 1)]).
Definition use_after_user : gmap string (list string) :=
  {[ "FOO" := ["BAR"; "BARX"]; "FOOX" := ["BAR"; "BARX"] ]}.

End Cases.

(** * Properties *)

#[local] Open Scope list_scope.
#[local] Set Warnings "-clear-no-such-hyp".

(** ** The URI check *)

Section FP003_properties.

Import FP003.

Variable re_match : string → string → bool.

Lemma check_uri_cases (namespace iri : string) :
  check_uri re_match namespace iri = Return CTrue
  ∨ check_uri re_match namespace iri = Raises AttributeError.
Proof.
  unfold check_uri; simpl.
  destruct (String.eqb iri (ontology_iri namespace)); [by left|].
  destruct (String.prefix namespace iri); [by right | by left].
Qed.

Lemma check_entities_keeps_accumulators (namespace : string)
  (entities : list entity) :
  ∀ error warn error' warn',
    check_entities re_match namespace entities error warn
      = Return (error', warn') →
    error' = error ∧ warn' = warn.
Proof.
  induction entities as [|e rest IH]; intros error warn error' warn'; simpl.
  - by intros [= -> ->].
  - destruct (isOWLAnnotationProperty e); [by apply IH|].
    destruct (is_obsolete_entity e); [by apply IH|].
    destruct (check_uri_cases namespace (lower (getIRI e))) as [-> | ->].
    + by apply IH.
    + discriminate.
Qed.

(** C9. [check_uri] raises [AttributeError] (the lookup of [startwith] on
    a [str]) for every IRI that starts with the namespace and is not the
    IRI of the ontology; it returns neither ['ERROR'] nor ['WARN'] for any
    input; the loop of [has_valid_uris] therefore never adds to [error] or
    [warn], and [has_valid_uris], when it returns, returns ['INFO'] or
    ['PASS'] and writes no report. *)
Theorem check_uri_startwith_raises (namespace iri : string) :
  (String.prefix namespace iri = true →
   iri ≠ ontology_iri namespace →
   check_uri re_match namespace iri = Raises AttributeError)
  ∧ check_uri re_match namespace iri ≠ Return CError
  ∧ check_uri re_match namespace iri ≠ Return CWarn
  ∧ (∀ entities error warn error' warn',
       check_entities re_match namespace entities error warn
         = Return (error', warn') →
       error' = error ∧ warn' = warn)
  ∧ (∀ ontology result,
       has_valid_uris re_match namespace ontology = Return result →
       result = (None, status_comment "INFO" "Unable to load ontology")
       ∨ result = (None, status_only "PASS")).
Proof.
  split; [|split; [|split; [|split]]].
  - intros Hprefix Hne. unfold check_uri; simpl.
    destruct (String.eqb_spec iri (ontology_iri namespace)); [done|].
    by rewrite Hprefix.
  - destruct (check_uri_cases namespace iri) as [-> | ->]; discriminate.
  - destruct (check_uri_cases namespace iri) as [-> | ->]; discriminate.
  - intros entities. apply check_entities_keeps_accumulators.
  - intros [entities|] result; simpl.
    + destruct (check_entities re_match namespace entities [] [])
        as [[error warn]|] eqn:Hloop; [|discriminate].
      apply check_entities_keeps_accumulators in Hloop as [-> ->].
      intros [= <-]. by right.
    + intros [= <-]. by left.
Qed.

(** C10. [save_invalid_uris] never returns the status ['WARN']: with
    warnings and no errors it returns ['ERROR'] with the message that
    counts the warnings, and it returns ['PASS'] exactly when both lists
    are empty. *)
Theorem save_invalid_uris_never_warn (ns : string) (error warn : list string) :
  (save_invalid_uris ns error warn).2 !! "status" ≠ Some "WARN"
  ∧ (error = [] → warn ≠ [] →
     (save_invalid_uris ns error warn).2
       = status_comment "ERROR" (warn_msg (length warn)))
  ∧ ((save_invalid_uris ns error warn).2 !! "status" = Some "PASS"
     ↔ error = [] ∧ warn = []).
Proof.
  unfold save_invalid_uris, status_comment, status_only.
  destruct error as [|e error], warn as [|x warn]; simpl;
    rewrite ?lookup_insert_ne, ?lookup_singleton_eq by done;
    repeat split; try done; try (intros [= ?]; done);
    try (intros [? ?]; done).
Qed.

End FP003_properties.

(** C9, on the IRI ["go:0008150"] in the namespace ["go"]. *)
Lemma check_uri_startwith_raises_witness :
  FP003.check_uri (λ _ _, true) "go" "go:0008150"
    = FP003.Raises FP003.AttributeError.
Proof.
  apply (proj1 (check_uri_startwith_raises (λ _ _, true) "go" "go:0008150")).
  - reflexivity.
  - discriminate.
Defined.

(** C10, on one warning and no error. *)
Lemma save_invalid_uris_never_warn_witness :
  (FP003.save_invalid_uris "go" [] ["go_abc"]).2
    = FP003.status_comment "ERROR" "1 warnings on IRIs".
Proof.
  apply (proj1 (proj2 (save_invalid_uris_never_warn "go" [] ["go_abc"]))).
  - reflexivity.
  - discriminate.
Defined.

(** ** The state of a run *)

Import Pipeline.

Section World.

Implicit Types (w : world) (o : string) (e : event).

Lemma files_of_add_event o e w : files_of o (add_event e w) = files_of o w.
Proof. reflexivity. Qed.

Lemma files_of_with_ontology_use o u w :
  files_of o (with_ontology_use u w) = files_of o w.
Proof. reflexivity. Qed.

Lemma files_of_with_files o f w :
  files_of o (with_files o f w) = f (files_of o w).
Proof. unfold files_of, with_files; simpl. by rewrite lookup_insert_eq. Qed.

Lemma trace_add_event e w : trace (add_event e w) = trace w ++ [e].
Proof. reflexivity. Qed.

Lemma trace_with_files o f w : trace (with_files o f w) = trace w.
Proof. reflexivity. Qed.

Lemma trace_with_ontology_use u w : trace (with_ontology_use u w) = trace w.
Proof. reflexivity. Qed.

Lemma ontology_use_add_event e w :
  ontology_use (add_event e w) = ontology_use w.
Proof. reflexivity. Qed.

Lemma ontology_use_with_files o f w :
  ontology_use (with_files o f w) = ontology_use w.
Proof. reflexivity. Qed.

Lemma ontology_use_with_ontology_use u w :
  ontology_use (with_ontology_use u w) = u.
Proof. reflexivity. Qed.

Lemma persisted_add_event o e w : persisted o (add_event e w) = persisted o w.
Proof. reflexivity. Qed.

Lemma persisted_with_ontology_use o u w :
  persisted o (with_ontology_use u w) = persisted o w.
Proof. reflexivity. Qed.

Lemma persisted_with_files o f w :
  persisted o (with_files o f w) = ont_results_path (f (files_of o w)) ≫= id.
Proof. unfold persisted. by rewrite files_of_with_files. Qed.

Lemma persisted_eq o w :
  persisted o w = ont_results_path (files_of o w) ≫= id.
Proof. reflexivity. Qed.

Lemma persisted_Some o w r :
  persisted o w = Some r ↔ ont_results_path (files_of o w) = Some (Some r).
Proof.
  unfold persisted.
  destruct (ont_results_path (files_of o w)) as [[r'|]|]; simpl;
    split; congruence.
Qed.

End World.

#[global] Opaque add_event with_files with_ontology_use files_of persisted.

Create Rewrite HintDb world.

#[export] Hint Rewrite files_of_add_event files_of_with_ontology_use
  files_of_with_files trace_add_event trace_with_files
  trace_with_ontology_use ontology_use_add_event ontology_use_with_files
  ontology_use_with_ontology_use persisted_add_event
  persisted_with_ontology_use persisted_with_files : world.

(** [norm] simplifies the state; [run] also unfolds the control operators
    and follows every branch. *)
Ltac norm :=
  repeat first
    [ progress cbn [ont_path ont_base_path ont_metrics_path ont_results_path
                    set_ont_path set_ont_base_path set_ont_metrics_path
                    set_ont_results_path world_of mbind option_bind id] in *
    | progress autorewrite with world in * ].

Ltac unfold_run :=
  unfold fail in *; unfold save_yaml in *;
  unfold bind, ret, continue, uncaught, emit, get_files, update_files,
    get_ontology_use, put_ontology_use in *.

(** Lookups in a record after assignments and deletions. *)
Ltac lookups :=
  repeat first
    [ rewrite lookup_insert_eq
    | rewrite lookup_insert_ne by done
    | rewrite lookup_delete_eq
    | rewrite lookup_delete_ne by done
    | rewrite lookup_empty ].

Ltac paths := repeat (first [progress simplify_eq | case_match]; norm).

Ltac run := unfold_run; norm; paths.

(** ** Control *)

Section Control.

Context {A B : Type}.
Implicit Types (m : M A) (k : A → M B) (w : world).

Lemma bind_Ok m k w b w' :
  bind m k w = Ok b w' → ∃ a w1, m w = Ok a w1 ∧ k a w1 = Ok b w'.
Proof. unfold bind. destruct (m w); naive_solver. Qed.

Lemma bind_cases m k w :
  (∃ a w1, m w = Ok a w1 ∧ bind m k w = k a w1)
  ∨ (∃ w1, m w = Continue w1 ∧ bind m k w = Continue w1)
  ∨ (∃ w1, m w = Uncaught w1 ∧ bind m k w = Uncaught w1).
Proof. unfold bind. destruct (m w); naive_solver. Qed.

End Control.

Section Emits.

Context {A : Type} (P : event → Prop).

Lemma emits_ret (a : A) : emits P (ret a).
Proof. intros w. exists []. by rewrite app_nil_r. Qed.

Lemma emits_continue : emits P (@continue A).
Proof. intros w. exists []. by rewrite app_nil_r. Qed.

Lemma emits_uncaught : emits P (@uncaught A).
Proof. intros w. exists []. by rewrite app_nil_r. Qed.

Lemma emits_bind {B} (m : M B) (k : B → M A) :
  emits P m → (∀ b, emits P (k b)) → emits P (bind m k).
Proof.
  intros Hm Hk w. destruct (Hm w) as (evs & Htr & Hevs). unfold bind.
  destruct (m w) as [b w1|w1|w1]; simpl in *; [|by eauto..].
  destruct (Hk b w1) as (evs' & Htr' & Hevs').
  exists (evs ++ evs'). rewrite Htr', Htr, app_assoc.
  split; [done | by apply Forall_app].
Qed.

Lemma emits_trace (m : M A) w e :
  emits P m → ¬ P e → e ∉ trace w → e ∉ trace (world_of (m w)).
Proof.
  intros Hm HP Hw. destruct (Hm w) as (evs & -> & Hevs).
  rewrite elem_of_app. intros [?|Hin]; [done|].
  rewrite Forall_forall in Hevs. by apply HP, Hevs.
Qed.

End Emits.

Lemma elem_of_calls_of (e : event) (t : list event) :
  is_call e = true → e ∈ calls_of t ↔ e ∈ t.
Proof.
  intros He. unfold calls_of. rewrite list_elem_of_omap. split.
  - intros (e' & Hin & Hcall). destruct (is_call e'); by simplify_eq.
  - intros Hin. exists e. by rewrite He.
Qed.

Lemma emits_emit (P : event → Prop) e : P e → emits P (emit e).
Proof. intros HP w. exists [e]. split; [done | by constructor]. Qed.

Lemma emits_get_files (P : event → Prop) o : emits P (get_files o).
Proof. intros w. exists []. by rewrite app_nil_r. Qed.

Lemma emits_update_files (P : event → Prop) o f : emits P (update_files o f).
Proof. intros w. exists []. by rewrite app_nil_r. Qed.

Lemma emits_get_ontology_use (P : event → Prop) : emits P get_ontology_use.
Proof. intros w. exists []. by rewrite app_nil_r. Qed.

Lemma emits_put_ontology_use (P : event → Prop) u :
  emits P (put_ontology_use u).
Proof. intros w. exists []. by rewrite app_nil_r. Qed.

Lemma emits_save_yaml o l r : emits (quiet o l) (save_yaml o r).
Proof.
  unfold save_yaml. apply emits_bind; [|intros; apply emits_update_files].
  apply emits_emit. left; eauto.
Qed.

Lemma emits_fail {A} o l tag r : emits (quiet o l) (@fail A o tag r).
Proof.
  unfold fail. apply emits_bind; [apply emits_save_yaml|].
  intros; apply emits_continue.
Qed.

Lemma quiet_trace {A} (m : M A) o l e w :
  emits (quiet o l) m → e ∉ l → (∀ r, e ≠ SaveYaml o r) →
  e ∉ trace w → e ∉ trace (world_of (m w)).
Proof.
  intros Hm Hl Hsave. apply emits_trace with (P := quiet o l); [done|].
  intros [[r ->]|?]; [by eapply Hsave | done].
Qed.

(** Decomposes a computation into its steps. *)
Ltac solve_emits :=
  repeat first
    [ apply emits_ret | apply emits_continue | apply emits_uncaught
    | apply emits_get_files | apply emits_update_files
    | apply emits_get_ontology_use | apply emits_put_ontology_use
    | apply emits_save_yaml | apply emits_fail
    | apply emits_emit; right; set_solver
    | apply emits_bind; [|intros ?]
    | match goal with
      | |- emits _ (match ?x with _ => _ end) => destruct x
      end ].

Section Stages.

Context `{Lib}.
Variables (cfg : config) (now : Z).
Implicit Types (w : world) (o : string) (r : record).

(** *** What each stage emits *)

Lemma emits_load_results o l : emits (quiet o l) (load_results cfg o).
Proof. unfold load_results. solve_emits. Qed.

Lemma emits_resolve_registry o l entry r :
  emits (quiet o l) (resolve_registry o entry r).
Proof. unfold resolve_registry. solve_emits. Qed.

Lemma emits_download_stage o l out download r :
  Urlretrieve o ∈ l → emits (quiet o l) (download_stage now o out download r).
Proof. intros. unfold download_stage. solve_emits. Qed.

Lemma emits_hash_stage o l download r :
  Sha256sum o ∈ l → emits (quiet o l) (hash_stage o download r).
Proof. intros. unfold hash_stage. solve_emits. Qed.

Lemma emits_compare_stage o l ourl make_base h r :
  emits (quiet o l) (compare_stage cfg now o ourl make_base h r).
Proof. unfold compare_stage. solve_emits. Qed.

Lemma emits_detect_change o l entry out :
  Urlretrieve o ∈ l → Sha256sum o ∈ l →
  emits (quiet o l) (detect_change cfg now o entry out).
Proof.
  intros. unfold detect_change.
  apply emits_bind; [apply emits_load_results | intros r1].
  apply emits_bind; [apply emits_get_files | intros f].
  apply emits_bind; [apply emits_resolve_registry|].
  intros [[ourl make_base] bns].
  apply emits_bind; [by apply emits_download_stage | intros _].
  apply emits_bind; [by apply emits_hash_stage | intros h].
  apply emits_bind; [apply emits_compare_stage | intros r2].
  apply emits_ret.
Qed.

Lemma emits_metrics_stage o l bns r :
  ReadMetrics o ∈ l → emits (quiet o l) (metrics_stage o bns r).
Proof. intros. unfold metrics_stage. solve_emits. Qed.

Lemma emits_regenerate_stage o l out bns r :
  VerifyHead o ∈ l → RobotPrepare o ∈ l → ReadMetrics o ∈ l →
  emits (quiet o l) (regenerate_stage now o out bns r).
Proof.
  intros. unfold regenerate_stage. solve_emits.
Qed.

Lemma emits_sanity_gate o l r :
  SanityGate o ∈ l → emits (quiet o l) (sanity_gate o r).
Proof. intros. unfold sanity_gate. solve_emits. Qed.

(** *** The records a stage hands on *)

Lemma fill_metrics_total m bps table block :
  ∃ block', fill_metrics m bps table block = Done block'
            ∨ fill_metrics m bps table block = Except block'.
Proof.
  revert block. induction table as [|[label src] rest IH]; intros block.
  - exists block. by left.
  - simpl. destruct (metric_value m bps src); [apply IH|].
    exists block. by right.
Qed.

(** The [try] block of the metrics stage assigns to ['base_prefixes'] and
    to ['metrics'] only. *)
Lemma read_metrics_other_keys loaded bns r u r' u' k :
  read_metrics loaded bns r u = Done (r', u')
  ∨ read_metrics loaded bns r u = Except (r', u') →
  k ≠ "metrics" → k ≠ "base_prefixes" → r' !! k = r !! k.
Proof.
  unfold read_metrics. intros Hread Hm Hb.
  repeat case_match; destruct Hread; simplify_eq;
    rewrite ?lookup_insert_ne by done; done.
Qed.

Lemma compare_stage_Ok o ourl make_base h r w r' w' :
  compare_stage cfg now o ourl make_base h r w = Ok r' w' →
  r' !! "failure" = None ∧ persisted o w' = Some r'.
Proof.
  unfold compare_stage. intros Hrun. run. split; [|done].
  rewrite !lookup_insert_ne by done. apply lookup_delete_eq.
Qed.

Lemma detect_change_Ok o entry out w r bns w' :
  detect_change cfg now o entry out w = Ok (r, bns) w' →
  r !! "failure" = None ∧ persisted o w' = Some r.
Proof.
  unfold detect_change. intros Hrun.
  apply bind_Ok in Hrun as (r1 & w1 & _ & Hrun).
  apply bind_Ok in Hrun as (f & w2 & _ & Hrun).
  apply bind_Ok in Hrun as ([[ourl make_base] bns'] & w3 & _ & Hrun).
  apply bind_Ok in Hrun as ([] & w4 & _ & Hrun).
  apply bind_Ok in Hrun as (h & w5 & _ & Hrun).
  apply bind_Ok in Hrun as (r2 & w6 & Hcompare & Hret).
  injection Hret as -> -> ->. by eapply compare_stage_Ok.
Qed.

Lemma metrics_stage_Ok o bns r w r' w' :
  metrics_stage o bns r w = Ok r' w' →
  persisted o w' = persisted o w ∧
  ∀ k, k ≠ "metrics" → k ≠ "base_prefixes" → r' !! k = r !! k.
Proof.
  unfold metrics_stage. intros Hrun. run. split; [done|].
  intros k ??. eapply read_metrics_other_keys; eauto.
Qed.

Lemma regenerate_stage_Ok o out bns r w r' w' :
  regenerate_stage now o out bns r w = Ok r' w' →
  ∀ k, k ≠ "metrics" → k ≠ "base_prefixes" → r' !! k = r !! k.
Proof.
  unfold regenerate_stage. intros Hrun.
  unfold_run; norm. paths; try done.
  apply metrics_stage_Ok in Hrun as [_ Hkeys]. done.
Qed.

Lemma sanity_gate_Ok o r w w' :
  sanity_gate o r w = Ok tt w' → persisted o w' = Some r.
Proof. unfold sanity_gate. intros Hrun. by run. Qed.

(** *** The aggregation step and the failure tag *)

(** The aggregation step keeps the failure tag of the record it loads; it
    adds one only when it builds the page and the build fails. *)
Lemma aggregate_ontology_failure n o out w r :
  persisted o w = Some r →
  ∃ r', persisted o (world_of (aggregate_ontology cfg n o out w)) = Some r'
        ∧ (r' !! "failure" = r !! "failure"
           ∨ (r !! "failure" = None ∧ make_dashboard_html out = false
              ∧ r' !! "failure" = Some (VStr "failed_ontology_dashboard"))).
Proof.
  intros Hr. pose proof Hr as Hfile. apply persisted_Some in Hfile.
  unfold aggregate_ontology, must_render. unfold_run; norm. rewrite Hfile.
  paths;
    rewrite ?persisted_Some; norm;
    try (eexists; split; [done|]);
    rewrite ?lookup_insert_eq, ?lookup_insert_ne by done; eauto.
  right. split_and!; [|done..].
  match goal with
  | Hb : _ ≫= _ = Some true |- _ =>
      rewrite !lookup_insert_ne in Hb by done;
      destruct (r !! "changed"); simplify_eq/=;
      apply andb_true_iff in Hb as [_ Hf];
      apply negb_true_iff, bool_decide_eq_false in Hf
  end.
  by apply eq_None_not_Some.
Qed.

(** C8. A record that carried [failure = failed_download] and whose
    ontology passes the whole first pass without a new failure is
    persisted without any ['failure'] key; the aggregation step leaves it
    so when the page of the ontology builds. *)
Theorem retried_record_has_no_failure o entry out w w' r0 :
  persisted o w = Some r0 →
  r0 !! "failure" = Some (VStr "failed_download") →
  prepare_ontology cfg now o entry out w = Ok tt w' →
  (∃ r', persisted o w' = Some r' ∧ r' !! "failure" = None)
  ∧ (∀ n out',
       make_dashboard_html out' = true →
       ∃ r'', persisted o (world_of (aggregate_ontology cfg n o out' w'))
                = Some r''
              ∧ r'' !! "failure" = None).
Proof.
  intros _ _ Hrun. unfold prepare_ontology in Hrun.
  apply bind_Ok in Hrun as ([r2 bns] & w6 & Hdetect & Hrun).
  apply bind_Ok in Hrun as (r3 & w7 & Hregen & Hgate). simpl in Hregen.
  apply detect_change_Ok in Hdetect as [Hnone _].
  apply regenerate_stage_Ok with (k := "failure") in Hregen; [|done..].
  apply sanity_gate_Ok in Hgate.
  assert (r3 !! "failure" = None) as Hr3 by congruence.
  split; [by eauto|].
  intros n out' Hmake.
  destruct (aggregate_ontology_failure n o out' w' r3 Hgate)
    as (r'' & Hp & [Hsame | (_ & Hfalse & _)]).
  - exists r''. split; [done | congruence].
  - congruence.
Qed.

(** *** The sanity gate *)

Lemma bind_reaches {A B} (m : M A) (k : A → M B) o l e w :
  emits (quiet o l) m → e ∉ l → (∀ r, e ≠ SaveYaml o r) →
  e ∉ trace w → e ∈ trace (world_of (bind m k w)) →
  ∃ a w1, m w = Ok a w1 ∧ bind m k w = k a w1 ∧ e ∉ trace w1.
Proof.
  intros Hm Hl Hsave Hw Hin.
  pose proof (quiet_trace m o l e w Hm Hl Hsave Hw) as Hout.
  destruct (bind_cases m k w)
    as [(a & w1 & Hmw & Hb) | [(w1 & Hmw & Hb) | (w1 & Hmw & Hb)]];
    rewrite Hmw in Hout; simpl in Hout.
  - by eauto.
  - by rewrite Hb in Hin.
  - by rewrite Hb in Hin.
Qed.

(** A run that reaches the gate is the gate on the record handed on by
    the earlier stages, and that record has no ['failure'] key. *)
Lemma prepare_ontology_reaches_gate o entry out w :
  SanityGate o ∉ trace w →
  SanityGate o ∈ trace (world_of (prepare_ontology cfg now o entry out w)) →
  ∃ r w1, prepare_ontology cfg now o entry out w = sanity_gate o r w1
          ∧ r !! "failure" = None.
Proof.
  intros Hw Hin. unfold prepare_ontology in *.
  set (l := [Urlretrieve o; Sha256sum o; VerifyHead o; RobotPrepare o;
             ReadMetrics o]).
  assert (SanityGate o ∉ l) as Hl by set_solver.
  assert (∀ r, SanityGate o ≠ SaveYaml o r) as Hsave by done.
  destruct (bind_reaches _ _ o l _ _
              (emits_detect_change o l entry out ltac:(set_solver)
                 ltac:(set_solver))
              Hl Hsave Hw Hin)
    as ([r2 bns] & w6 & Hdetect & Heq & Hw6).
  rewrite Heq in Hin |- *; clear Heq. simpl in Hin |- *.
  destruct (bind_reaches _ _ o l _ _
              (emits_regenerate_stage o l out bns r2 ltac:(set_solver)
                 ltac:(set_solver) ltac:(set_solver))
              Hl Hsave Hw6 Hin)
    as (r3 & w7 & Hregen & Heq & Hw7).
  rewrite Heq in Hin |- *; clear Heq. simpl in Hregen.
  exists r3, w7. split; [done|].
  apply detect_change_Ok in Hdetect as [Hnone _].
  apply regenerate_stage_Ok with (k := "failure") in Hregen; [|done..].
  congruence.
Qed.

(** What the gate persists, for a record without failure tag. *)
Lemma sanity_gate_persists o r w :
  r !! "failure" = None →
  ∃ r', persisted o (world_of (sanity_gate o r w)) = Some r'
    ∧ r' !! "metrics" = r !! "metrics"
    ∧ ∀ block v,
        r !! "metrics" = Some (VDict block) →
        block !! "Axioms: Number of axioms" = Some v →
        (lt_one v = Some true →
         r' !! "failure" = Some (VStr "empty_ontology"))
        ∧ (r' !! "failure" = Some (VStr "inconsistent_ontology") →
           lt_one v = Some false).
Proof.
  intros Hnone. unfold sanity_gate. unfold_run; norm.
  paths.
  all: eexists; (split; [done|]).
  all: rewrite ?lookup_insert_ne, ?lookup_insert_eq by done.
  all: split; [done|]; intros block v Hblock Hv.
  all: rewrite Hblock in *; simpl in *; rewrite Hv in *; simpl in *.
  all: split; intros; congruence.
Qed.

(** C5. In a run that reaches the check of the metrics, a record whose
    metrics count less than one axiom is persisted with
    [failure = empty_ontology], whatever the consistency flag says, and
    the aggregation step leaves that tag in place; a record persisted with
    [inconsistent_ontology] has an axiom count that is not below one. *)
Theorem empty_ontology_before_consistency o entry out w :
  SanityGate o ∉ trace w →
  SanityGate o ∈ trace (world_of (prepare_ontology cfg now o entry out w)) →
  ∃ r',
    persisted o (world_of (prepare_ontology cfg now o entry out w)) = Some r'
    ∧ ∀ block v,
        r' !! "metrics" = Some (VDict block) →
        block !! "Axioms: Number of axioms" = Some v →
        (lt_one v = Some true →
         r' !! "failure" = Some (VStr "empty_ontology")
         ∧ ∀ n out',
             persisted o
               (world_of
                  (aggregate_ontology cfg n o out'
                     (world_of (prepare_ontology cfg now o entry out w))))
               ≫= (λ r'', r'' !! "failure")
             = Some (VStr "empty_ontology"))
        ∧ (r' !! "failure" = Some (VStr "inconsistent_ontology") →
           lt_one v = Some false).
Proof.
  intros Hw Hin.
  destruct (prepare_ontology_reaches_gate o entry out w Hw Hin)
    as (r & w1 & -> & Hnone).
  destruct (sanity_gate_persists o r w1 Hnone) as (r' & Hp & Hm & Hgate).
  exists r'. split; [done|]. intros block v Hblock Hv.
  rewrite Hm in Hblock. destruct (Hgate block v Hblock Hv) as [Hempty Hinc].
  split; [|done]. intros Hlt. split; [by auto|]. intros n out'.
  destruct (aggregate_ontology_failure n o out' _ r' Hp)
    as (r'' & -> & [Hsame | (Hnone' & _)]); simpl.
  - rewrite Hsame. by auto.
  - rewrite Hempty in Hnone' by done. done.
Qed.

Lemma prepare_ontology_eq o entry out :
  prepare_ontology cfg now o entry out
  = bind (detect_change cfg now o entry out)
      (λ detected,
         bind (regenerate_stage now o out detected.2 detected.1)
              (sanity_gate o)).
Proof. reflexivity. Qed.

(** *** The verification of the downloaded file *)

Lemma ont_path_robot_writes (ro : robot_outcome) (f : ont_files) :
  ont_path (robot_writes now ro f) = ont_path f.
Proof. unfold robot_writes. by repeat case_match. Qed.

(** From the verification on: a file that fails the check of its first
    ten lines stops the iteration with [not_an_ontology], before the
    toolchain. *)
Lemma regenerate_rejects_bad_head o out bns r w :
  RobotPrepare o ∉ trace w → VerifyHead o ∉ trace w →
  head_is_ontology
    (ont_path
       (files_of o
          (world_of (bind (regenerate_stage now o out bns r)
                          (sanity_gate o) w)))) = false →
  (RobotPrepare o
     ∉ trace (world_of (bind (regenerate_stage now o out bns r)
                             (sanity_gate o) w)))
  ∧ (VerifyHead o
       ∈ trace (world_of (bind (regenerate_stage now o out bns r)
                               (sanity_gate o) w)) →
     persisted o (world_of (bind (regenerate_stage now o out bns r)
                                 (sanity_gate o) w))
       ≫= (λ r', r' !! "failure")
     = Some (VStr "not_an_ontology")).
Proof.
  intros Hrobot Hverify.
  unfold regenerate_stage, metrics_stage, sanity_gate.
  unfold_run; norm.
  paths;
    rewrite ?ont_path_robot_writes; intros Hhead; try congruence.
  all: rewrite ?elem_of_app, ?list_elem_of_singleton.
  all: try (rewrite lookup_insert_eq).
  all: naive_solver.
Qed.

(** C4, as the code has it. A run whose downloaded file has fewer than ten
    lines, or has the marker [ListBucketResult] in its first ten lines,
    does not invoke the toolchain; and whenever the run verifies the file
    (that is, when the record is marked changed or the metrics file or
    the base file is missing) it persists [failure = not_an_ontology]. *)
Theorem bad_head_never_reaches_toolchain o entry out w :
  RobotPrepare o ∉ trace w → VerifyHead o ∉ trace w →
  head_is_ontology
    (ont_path
       (files_of o (world_of (prepare_ontology cfg now o entry out w))))
    = false →
  (RobotPrepare o
     ∉ trace (world_of (prepare_ontology cfg now o entry out w)))
  ∧ (VerifyHead o
       ∈ trace (world_of (prepare_ontology cfg now o entry out w)) →
     persisted o (world_of (prepare_ontology cfg now o entry out w))
       ≫= (λ r', r' !! "failure")
     = Some (VStr "not_an_ontology")).
Proof.
  intros Hrobot Hverify. rewrite prepare_ontology_eq.
  set (l := [Urlretrieve o; Sha256sum o]).
  pose proof (emits_detect_change o l entry out ltac:(set_solver)
                ltac:(set_solver)) as Hemits.
  pose proof (quiet_trace _ o l (RobotPrepare o) w Hemits
                ltac:(set_solver) ltac:(done) Hrobot) as Hrobot1.
  pose proof (quiet_trace _ o l (VerifyHead o) w Hemits
                ltac:(set_solver) ltac:(done) Hverify) as Hverify1.
  destruct (bind_cases (detect_change cfg now o entry out)
              (λ detected,
                 bind (regenerate_stage now o out detected.2 detected.1)
                      (sanity_gate o)) w)
    as [([r2 bns] & w1 & Hd & ->) | [(w1 & Hd & ->) | (w1 & Hd & ->)]];
    rewrite Hd in Hrobot1, Hverify1; simpl in *.
  - by apply regenerate_rejects_bad_head.
  - done.
  - done.
Qed.

(** *** The decision to download *)

Lemma quiet_trace_iff {A} (m : M A) o l e w :
  emits (quiet o l) m → e ∉ l → (∀ r, e ≠ SaveYaml o r) →
  e ∈ trace (world_of (m w)) ↔ e ∈ trace w.
Proof.
  intros Hm Hl Hsave. destruct (Hm w) as (evs & -> & Hevs).
  rewrite elem_of_app. split; [|by left]. intros [?|Hin]; [done|].
  rewrite Forall_forall in Hevs.
  destruct (Hevs _ Hin) as [[r ->]|?]; [by edestruct Hsave | done].
Qed.

(** When the record loads and the registry entry is complete, the first
    stages call [urlretrieve] exactly when [download] is set. *)
Lemma detect_change_downloads o entry out w :
  (ont_results_path (files_of o w) = None
   ∨ is_skip_existing cfg = false
     ∧ ∃ r0, ont_results_path (files_of o w) = Some (Some r0)) →
  is_Some (mirror_from entry) → is_Some (base_ns entry) →
  Urlretrieve o ∉ trace w →
  Urlretrieve o ∈ trace (world_of (detect_change cfg now o entry out w))
  ↔ decide_download cfg now (files_of o w) = true.
Proof.
  intros Hload [ourl Hurl] [bns Hbns] Hw.
  unfold detect_change, load_results, resolve_registry, download_stage,
    hash_stage, compare_stage.
  rewrite Hurl, Hbns. unfold_run; norm.
  destruct Hload as [-> | (-> & r0 & ->)]; norm.
  all: destruct (decide_download cfg now (files_of o w)) eqn:Hd; norm.
  all: paths.
  all: rewrite ?elem_of_app, ?list_elem_of_singleton; naive_solver.
Qed.

(** C7, as the code has it. The flag [download] is cleared exactly when the
    base file of the ontology ([ont_base_path], the output of the
    toolchain) exists and is younger than the redownload threshold; and in
    a run that loads the record and finds the URL and the base namespaces,
    [urlretrieve] is called exactly when the flag is set. *)
Theorem download_follows_base_file o entry out w :
  (ont_results_path (files_of o w) = None
   ∨ is_skip_existing cfg = false
     ∧ ∃ r0, ont_results_path (files_of o w) = Some (Some r0)) →
  is_Some (mirror_from entry) → is_Some (base_ns entry) →
  Urlretrieve o ∉ trace w →
  (decide_download cfg now (files_of o w) = false
   ↔ ∃ modified_timestamp,
       ont_base_path (files_of o w) = Some modified_timestamp
       ∧ get_hours_since now modified_timestamp
         < get_redownload_after_hours cfg)
  ∧ (Urlretrieve o ∈ trace (world_of (prepare_ontology cfg now o entry out w))
     ↔ decide_download cfg now (files_of o w) = true).
Proof.
  intros Hload Hurl Hbns Hw. split.
  - unfold decide_download.
    destruct (ont_base_path (files_of o w)) as [mt|]; [|naive_solver].
    destruct (Z.ltb_spec (get_hours_since now mt)
                (get_redownload_after_hours cfg)); naive_solver lia.
  - rewrite <- (detect_change_downloads o entry out w) by done.
    rewrite prepare_ontology_eq.
    set (l := [Sha256sum o; VerifyHead o; RobotPrepare o; ReadMetrics o;
               SanityGate o]).
    assert (Urlretrieve o ∉ l) as Hl by set_solver.
    destruct (bind_cases (detect_change cfg now o entry out)
                (λ detected,
                   bind (regenerate_stage now o out detected.2 detected.1)
                        (sanity_gate o)) w)
      as [([r2 bns] & w1 & -> & ->) | [(w1 & -> & ->) | (w1 & -> & ->)]];
      simpl; [|done..].
    apply quiet_trace_iff with (o := o) (l := l); [|done..].
    apply emits_bind; [apply emits_regenerate_stage; set_solver|].
    intros r3. apply emits_sanity_gate. set_solver.
Qed.

(** *** Failure tags and the metrics of an earlier run *)

(** The stages up to the comparison of hashes never assign to
    ['metrics']. *)
Lemma detect_change_keeps_metrics o entry out w :
  persisted o (world_of (detect_change cfg now o entry out w))
    ≫= (λ r, r !! "metrics")
  = persisted o w ≫= (λ r, r !! "metrics").
Proof.
  unfold detect_change, load_results, resolve_registry, download_stage,
    hash_stage, compare_stage.
  unfold_run; norm. rewrite (persisted_eq o w).
  paths.
  all: rewrite ?persisted_eq.
  all: repeat match goal with
         | Hf : ont_results_path _ = _ |- _ => rewrite Hf
         end.
  all: simpl; lookups; done.
Qed.

(** From the verification on, ['metrics'] is assigned by the metrics
    stage only. *)
Lemma regenerate_keeps_metrics o out bns r w :
  persisted o w = Some r →
  ReadMetrics o ∉ trace w →
  ReadMetrics o
    ∉ trace (world_of (bind (regenerate_stage now o out bns r)
                            (sanity_gate o) w)) →
  persisted o (world_of (bind (regenerate_stage now o out bns r)
                              (sanity_gate o) w))
    ≫= (λ r', r' !! "metrics")
  = r !! "metrics".
Proof.
  intros Hr Hw.
  unfold regenerate_stage, metrics_stage, sanity_gate.
  unfold_run; norm.
  paths.
  all: rewrite ?elem_of_app, ?list_elem_of_singleton.
  all: rewrite ?Hr; simpl.
  all: rewrite ?lookup_insert_ne by done.
  all: naive_solver.
Qed.

(** An iteration of the first pass in which the metrics stage does not run
    (in particular one that fails at the URL, the base namespaces, the
    download, the hash, the verification or the toolchain) persists the
    ['metrics'] entry that the record held before, no more and no less:
    the failure tag is added next to it. *)
Lemma prepare_ontology_keeps_loaded_metrics o entry out w :
  ReadMetrics o ∉ trace w →
  ReadMetrics o ∉ trace (world_of (prepare_ontology cfg now o entry out w)) →
  persisted o (world_of (prepare_ontology cfg now o entry out w))
    ≫= (λ r', r' !! "metrics")
  = persisted o w ≫= (λ r, r !! "metrics").
Proof.
  intros Hw. rewrite prepare_ontology_eq.
  set (l := [Urlretrieve o; Sha256sum o]).
  pose proof (emits_detect_change o l entry out ltac:(set_solver)
                ltac:(set_solver)) as Hemits.
  pose proof (quiet_trace _ o l (ReadMetrics o) w Hemits
                ltac:(set_solver) ltac:(done) Hw) as Hw1.
  pose proof (detect_change_keeps_metrics o entry out w) as Hkeep.
  destruct (bind_cases (detect_change cfg now o entry out)
              (λ detected,
                 bind (regenerate_stage now o out detected.2 detected.1)
                      (sanity_gate o)) w)
    as [([r2 bns] & w1 & Hd & ->) | [(w1 & Hd & ->) | (w1 & Hd & ->)]];
    rewrite Hd in Hw1, Hkeep; simpl in *; [|done..].
  intros Hout. apply detect_change_Ok in Hd as [_ Hp].
  rewrite regenerate_keeps_metrics by done.
  rewrite Hp in Hkeep. done.
Qed.

(** *** The aggregation step *)

Lemma score_metrics_Some n uses block block' :
  score_metrics n uses block = Some block' →
  ∃ reuse,
    block' =
      <["Info: Experimental OBO score" :=
          VDict (<["_reuse" := VFloat (round_float reuse)]>
                   (<["_impact" :=
                        VFloat (round_float
                                  (Qdiv (Z.of_nat (count_uses uses) # 1)
                                        (Z.of_nat n # 1)))]> ∅))]>
        (<["Info: How many ontologies use it?" :=
             VInt (Z.of_nat (count_uses uses))]> block).
Proof.
  unfold score_metrics, py_div. intros Hs.
  destruct n as [|n]; [done|].
  repeat case_match; simplify_eq. by eexists.
Qed.

Lemma score_metrics_intro n uses block v reused :
  n ≠ 0%nat →
  block !! "Entities: % of entities reused" = Some v →
  py_float v = Some reused →
  score_metrics n uses block
  = Some (<["Info: Experimental OBO score" :=
              VDict (<["_reuse" :=
                         VFloat (round_float
                                   (Qdiv reused (Z.of_nat 100 # 1)))]>
                       (<["_impact" :=
                            VFloat (round_float
                                      (Qdiv (Z.of_nat (count_uses uses) # 1)
                                            (Z.of_nat n # 1)))]> ∅))]>
            (<["Info: How many ontologies use it?" :=
                 VInt (Z.of_nat (count_uses uses))]> block)).
Proof.
  intros Hn Hv Hfloat. unfold score_metrics, py_div.
  destruct n as [|n]; [done|].
  rewrite lookup_insert_ne by done. rewrite Hv. simpl. by rewrite Hfloat.
Qed.

(** C2, as the code has it. The aggregation step is decided by the key
    ['metrics'] of the loaded record and by nothing else: a record without
    it is left alone, and a record with a metrics block gets the number of
    users and the two scores written into that block and saved, whether
    or not ['failure'] is set. A failure tag only keeps the page of the
    ontology from being built. *)
Theorem aggregation_is_gated_by_metrics n o out w r :
  is_skip_existing cfg = false →
  persisted o w = Some r →
  (r !! "metrics" = None → aggregate_ontology cfg n o out w = Ok tt w)
  ∧ (∀ block uses block',
       r !! "metrics" = Some (VDict block) →
       collect_uses r (ontology_use w) = Some uses →
       score_metrics n uses block = Some block' →
       (∃ r',
          persisted o (world_of (aggregate_ontology cfg n o out w)) = Some r'
          ∧ r' !! "metrics" = Some (VDict block')
          ∧ block' !! "Info: How many ontologies use it?"
            = Some (VInt (Z.of_nat (count_uses uses)))
          ∧ is_Some (block' !! "Info: Experimental OBO score"))
       ∧ (is_Some (r !! "failure") →
          MakeHtml o ∉ trace w →
          MakeHtml o ∉ trace (world_of (aggregate_ontology cfg n o out w)))).
Proof.
  intros Hskip Hr. pose proof Hr as Hfile. apply persisted_Some in Hfile.
  split.
  - intros Hm. unfold aggregate_ontology. unfold_run; norm.
    by rewrite Hfile, Hskip, Hm.
  - intros block uses block' Hm Huses Hscore.
    unfold aggregate_ontology, must_render. unfold_run; norm.
    rewrite Hfile, Hskip, Hm; norm. rewrite Huses, Hscore; norm.
    destruct (score_metrics_Some _ _ _ _ Hscore) as (reuse & Hblock).
    split.
    + assert (block' !! "Info: How many ontologies use it?"
              = Some (VInt (Z.of_nat (count_uses uses)))) as Hcount.
      { rewrite Hblock, lookup_insert_ne by done. apply lookup_insert_eq. }
      assert (is_Some (block' !! "Info: Experimental OBO score")) as Hsc.
      { rewrite Hblock, lookup_insert_eq. by eexists. }
      paths.
      all: eexists; split; [done|].
      all: rewrite ?lookup_insert_ne by done.
      all: by rewrite lookup_insert_eq.
    + intros Hfail Hw.
      rewrite !lookup_insert_ne by done.
      rewrite (bool_decide_eq_true_2 _ Hfail).
      destruct (r !! "changed") as [c|]; simpl; rewrite ?andb_false_r; norm.
      all: rewrite ?elem_of_app, ?list_elem_of_singleton; naive_solver.
Qed.

Lemma mapM_as_str_strings (l : list string) :
  mapM as_str (VStr <$> l) = Some l.
Proof.
  induction l as [|s l IH]; [done|]. simpl.
  change (list_fmap string yval VStr l) with (VStr <$> l).
  by rewrite IH.
Qed.

Lemma list_to_set_concat (ls : list (list string)) :
  (list_to_set (concat ls) : gset string) = ⋃ (list_to_set <$> ls).
Proof.
  induction ls as [|l ls IH]; [done|]. simpl.
  by rewrite list_to_set_app_L, IH.
Qed.

(** *** A second run inside both windows *)

(** When the download is skipped and the record already has a
    ['sha256_hash'] key, no hash is computed: the record is saved with
    [changed = True] and with [sha256_hash = None], and the verification
    and the toolchain follow. *)
Lemma skipped_download_forgets_hash o entry out w r0 ourl bns :
  is_skip_existing cfg = false →
  ont_results_path (files_of o w) = Some (Some r0) →
  is_Some (r0 !! "sha256_hash") →
  decide_download cfg now (files_of o w) = false →
  mirror_from entry = Some ourl →
  base_ns entry = Some bns →
  ∃ r w1,
    detect_change cfg now o entry out w = Ok (r, bns) w1
    ∧ r !! "changed" = Some (VBool true)
    ∧ r !! "sha256_hash" = Some VNone
    ∧ trace w1 = trace w ++ [SaveYaml o r]
    ∧ (head_is_ontology (ont_path (files_of o w)) = true →
       RobotPrepare o
         ∈ trace (world_of (prepare_ontology cfg now o entry out w))).
Proof.
  intros Hskip Hload Hhash Hd Hurl Hbns.
  unfold prepare_ontology, detect_change, load_results, resolve_registry,
    download_stage, hash_stage, compare_stage, decide_changed.
  rewrite Hurl, Hbns. unfold_run; norm. rewrite Hload, Hskip, Hd; norm.
  rewrite lookup_insert_ne by done.
  rewrite (bool_decide_eq_true_2 _ Hhash). simpl; norm.
  destruct Hhash as [stored Hstored]. rewrite Hstored.
  eexists _, _. split; [done|]. split_and!.
  - rewrite !lookup_insert_ne by done. rewrite lookup_delete_ne by done.
    apply lookup_insert_eq.
  - rewrite !lookup_insert_ne by done. apply lookup_insert_eq.
  - done.
  - intros Hhead.
    unfold regenerate_stage, must_regenerate, metrics_stage, sanity_gate.
    unfold_run; norm.
    rewrite !lookup_insert_ne by done. rewrite lookup_delete_ne by done.
    rewrite lookup_insert_eq. simpl. rewrite Hhead. norm.
    paths.
    all: rewrite ?elem_of_app, ?list_elem_of_singleton; naive_solver.
Qed.

End Stages.

(** ** The claims on concrete runs *)

Import Scenario.

(** Decide membership in an explicit list of events. *)
Ltac in_trace :=
  apply elem_of_calls_of; [reflexivity|];
  vm_compute;
  repeat first [apply list_elem_of_here | apply list_elem_of_further].

Ltac not_in_trace :=
  let Hin := fresh "Hin" in
  intros Hin; apply elem_of_calls_of in Hin; [|reflexivity];
  vm_compute in Hin;
  repeat (apply elem_of_cons in Hin as [Hin|Hin]; [discriminate Hin|]);
  by apply elem_of_nil in Hin.

(** C1, evaluated. The ontology ["foo"] is processed at hour 100 and again
    at hour 101, the source unchanged, both thresholds at 24 hours. The
    second run downloads nothing and computes no hash, yet it verifies the
    file and invokes the toolchain again, and it replaces the stored hash by
    [None]: the record of the second run differs from the record of the
    first. *)
Theorem second_run_invokes_toolchain_again :
  calls first_run
    = [Urlretrieve "foo"; Sha256sum "foo"; VerifyHead "foo";
       RobotPrepare "foo"; ReadMetrics "foo"; SanityGate "foo";
       Aggregate "foo"; MakeHtml "foo"]
  ∧ ont_base_path (files_of "foo" (world_of first_run)) = Some 100
  ∧ fst <$> ont_path (files_of "foo" (world_of first_run)) = Some 100
  ∧ calls second_run
    = [VerifyHead "foo"; RobotPrepare "foo"; ReadMetrics "foo";
       SanityGate "foo"; Aggregate "foo"; MakeHtml "foo"]
  ∧ field "sha256_hash" first_run = Some (VStr (String.concat "|" owl_lines))
  ∧ field "sha256_hash" second_run = Some VNone
  ∧ field "changed" second_run = Some (VBool true)
  ∧ persisted "foo" (world_of second_run) ≠ persisted "foo" (world_of first_run).
Proof.
  split_and!; try (vm_compute; reflexivity).
  intros Heq.
  assert (field "sha256_hash" second_run = field "sha256_hash" first_run)
    as Hfield by (unfold field; by rewrite Heq).
  vm_compute in Hfield. discriminate Hfield.
Qed.

(** C2 fails on the code. The record of ["foo"] carries
    [failure = empty_ontology] and no score when the aggregation pass
    starts; the pass aggregates it all the same and writes the number of
    users and both scores into it. *)
Lemma failed_record_is_aggregated :
  (persisted "foo" (world_of empty_first_pass) ≫= λ r, r !! "failure")
    = Some (VStr "empty_ontology")
  ∧ (persisted "foo" (world_of empty_first_pass) ≫= λ r,
       r !! "metrics" ≫= λ m, subscript m "Info: Experimental OBO score")
    = None
  ∧ calls empty_run
    = [Urlretrieve "foo"; Sha256sum "foo"; VerifyHead "foo";
       RobotPrepare "foo"; ReadMetrics "foo"; SanityGate "foo";
       Aggregate "foo"]
  ∧ field "failure" empty_run = Some (VStr "empty_ontology")
  ∧ metric "Info: How many ontologies use it?" empty_run = Some (VInt 1)
  ∧ (metric "Info: Experimental OBO score" empty_run
       ≫= λ score, subscript score "_impact") = Some (VFloat (1 # 1))
  ∧ (metric "Info: Experimental OBO score" empty_run
       ≫= λ score, subscript score "_reuse") = Some (VFloat (1 # 4)).
Proof. split_and!; vm_compute; reflexivity. Qed.

(** C2, on the record of ["foo"] when the aggregation pass of [empty_run]
    starts: it has a metrics block and the tag [empty_ontology]. *)
Lemma aggregation_is_gated_by_metrics_witness :
  ∃ r,
    persisted "foo" (world_of empty_first_pass) = Some r
    ∧ r !! "failure" = Some (VStr "empty_ontology")
    ∧ ∃ r' block',
        persisted "foo"
          (world_of (@aggregate_ontology fixture_lib cfg 1 "foo" (empty "foo")
                       (world_of empty_first_pass))) = Some r'
        ∧ r' !! "metrics" = Some (VDict block')
        ∧ is_Some (block' !! "Info: Experimental OBO score").
Proof.
  assert (persisted "foo" (world_of empty_first_pass)
            ≫= (λ r, r !! "failure") = Some (VStr "empty_ontology")) as Hfail
    by (vm_compute; reflexivity).
  assert (persisted "foo" (world_of empty_first_pass)
            ≫= (λ r, r !! "metrics"
            ≫= (λ m, match m with
                     | VDict block =>
                         collect_uses r
                           (ontology_use (world_of empty_first_pass))
                         ≫= (λ uses, @score_metrics fixture_lib 1 uses block
                         ≫= (λ _, Some tt))
                     | _ => None
                     end)) = Some tt) as Hscored
    by (vm_compute; reflexivity).
  destruct (persisted "foo" (world_of empty_first_pass)) as [r|] eqn:Hp;
    [|discriminate Hfail].
  simpl in Hfail, Hscored.
  destruct (r !! "metrics") as [[| | | | | |block]|] eqn:Hm;
    try discriminate Hscored.
  simpl in Hscored.
  destruct (collect_uses r (ontology_use (world_of empty_first_pass)))
    as [uses|] eqn:Huses; [|discriminate Hscored].
  simpl in Hscored.
  destruct (@score_metrics fixture_lib 1 uses block) as [block'|] eqn:Hscore;
    [|discriminate Hscored].
  exists r. split; [reflexivity|]. split; [exact Hfail|].
  destruct (@aggregation_is_gated_by_metrics fixture_lib cfg 1 "foo"
              (empty "foo") (world_of empty_first_pass) r eq_refl Hp)
    as [_ Hblock].
  destruct (Hblock block uses block' Hm Huses Hscore)
    as [(r' & Hp' & Hm' & _ & Hsc) _].
  exists r', block'. split; [exact Hp'|]. split; [exact Hm' | exact Hsc].
Defined.

(** C3 fails on the code. After a healthy run, the source is offline: the
    run calls [urlretrieve] and nothing after it in the first pass, and the
    persisted record has [failure = failed_download] together with the
    metrics block of the earlier run; the second pass aggregates that
    record and writes a new number of users into the block. *)
Lemma failed_download_carries_earlier_metrics :
  calls offline_run = [Urlretrieve "foo"; Aggregate "foo"]
  ∧ field "failure" offline_run = Some (VStr "failed_download")
  ∧ metric "Axioms: Number of axioms" offline_run = Some (VInt 40)
  ∧ metric "Axioms: Number of axioms" first_run = Some (VInt 40)
  ∧ metric "Info: Syntax" offline_run = Some (VStr "RDF/XML Syntax")
  ∧ metric "Info: How many ontologies use it?" first_run = Some (VInt 1)
  ∧ metric "Info: How many ontologies use it?" offline_run = Some (VInt 0).
Proof. split_and!; vm_compute; reflexivity. Qed.

(** C4 fails on the code. After a healthy run the source serves the error
    page of the bucket, twice. The first of these runs verifies the file and
    records [not_an_ontology]. The second downloads the same page, finds
    its hash unchanged and the derived files on disk, verifies nothing and
    persists a record without failure tag, although the marker is in the
    second line of the downloaded file. *)
Lemma unchanged_bucket_page_is_not_rejected :
  field "failure" bucket_run = Some (VStr "not_an_ontology")
  ∧ ont_path (files_of "foo" (world_of bucket_rerun))
    = Some (300, bucket_lines)
  ∧ existsb (contains "ListBucketResult") (take 10 bucket_lines) = true
  ∧ calls bucket_rerun
    = [Urlretrieve "foo"; Sha256sum "foo"; SanityGate "foo";
       Aggregate "foo"; MakeHtml "foo"]
  ∧ field "changed" bucket_rerun = Some (VBool false)
  ∧ field "failure" bucket_rerun = None.
Proof. split_and!; vm_compute; reflexivity. Qed.

(** C4, on the first run that downloads the error page. *)
Lemma bad_head_never_reaches_toolchain_witness :
  (RobotPrepare "foo"
     ∉ trace (world_of (@prepare_ontology fixture_lib cfg 200 "foo" foo_entry
                          (misconfigured "foo")
                          (initial_world (disk_after first_run)))))
  ∧ persisted "foo"
      (world_of (@prepare_ontology fixture_lib cfg 200 "foo" foo_entry
                   (misconfigured "foo")
                   (initial_world (disk_after first_run))))
      ≫= (λ r', r' !! "failure")
    = Some (VStr "not_an_ontology").
Proof.
  destruct (@bad_head_never_reaches_toolchain fixture_lib cfg 200 "foo"
              foo_entry (misconfigured "foo")
              (initial_world (disk_after first_run)))
    as [Hrobot Hverify].
  - apply not_elem_of_nil.
  - apply not_elem_of_nil.
  - vm_compute; reflexivity.
  - split; [exact Hrobot|]. apply Hverify. in_trace.
Defined.

(** C5, on the ontology without axioms whose metrics say [consistent]. *)
Lemma empty_ontology_before_consistency_witness :
  (persisted "foo"
     (world_of (@prepare_ontology fixture_lib cfg 100 "foo" foo_entry
                  (empty "foo") (initial_world ∅)))
     ≫= λ r', r' !! "metrics" ≫= λ m, subscript m "Info: Logical consistency")
  = Some (VBool true)
  ∧ ∃ r',
      persisted "foo"
        (world_of (@prepare_ontology fixture_lib cfg 100 "foo" foo_entry
                     (empty "foo") (initial_world ∅))) = Some r'
      ∧ r' !! "failure" = Some (VStr "empty_ontology").
Proof.
  split; [vm_compute; reflexivity|].
  destruct (@empty_ontology_before_consistency fixture_lib cfg 100 "foo"
              foo_entry (empty "foo") (initial_world ∅))
    as (r' & Hp & Hgate).
  - apply not_elem_of_nil.
  - in_trace.
  - exists r'. split; [exact Hp|].
    assert (persisted "foo"
              (world_of (@prepare_ontology fixture_lib cfg 100 "foo" foo_entry
                           (empty "foo") (initial_world ∅)))
              ≫= (λ r, r !! "metrics"
              ≫= (λ m, match m with
                       | VDict block => block !! "Axioms: Number of axioms"
                       | _ => None
                       end)) = Some (VInt 0)) as Haxioms
      by (vm_compute; reflexivity).
    rewrite Hp in Haxioms. simpl in Haxioms.
    destruct (r' !! "metrics") as [[| | | | | |block]|] eqn:Hm;
      try discriminate Haxioms.
    simpl in Haxioms.
    destruct (Hgate block (VInt 0) eq_refl Haxioms) as [Hempty _].
    apply Hempty. reflexivity.
Defined.

(** C6 fails on the code. Two ontologies are registered. ["bar"] has the two
    base prefixes [BAR] and [BARX] and uses the prefix [FOO] in its axioms,
    as ["foo"] itself does; the entry of [ontology_use] for [FOO] holds
    three base prefixes, and ["foo"] is recorded as used by three, more than
    there are ontologies: the one ontology ["bar"] counts twice. *)
Lemma two_base_prefixes_count_twice :
  length foo_and_bar = 2%nat
  ∧ ontology_use (world_of two_ontologies) !! "FOO"
    = Some ["FOO"; "BARX"; "BAR"]
  ∧ field "base_prefixes" two_ontologies = Some (VList [VStr "FOO"])
  ∧ (persisted "bar" (world_of two_ontologies) ≫= λ r, r !! "base_prefixes")
    = Some (VList [VStr "BARX"; VStr "BAR"])
  ∧ metric "Info: How many ontologies use it?" two_ontologies = Some (VInt 3)
  ∧ (metric "Info: Experimental OBO score" two_ontologies
       ≫= λ score, subscript score "_impact") = Some (VFloat (3 # 2)).
Proof. split_and!; vm_compute; reflexivity. Qed.

(** C7 fails on the code. The toolchain failed at hour 100 and left no base
    file; the file downloaded then is one hour old at hour 101, well below
    the threshold of 24 hours, and it is downloaded again. *)
Lemma fresh_download_is_fetched_again :
  field "failure" toolchain_failure = Some (VStr "failed_robot_base")
  ∧ fst <$> ont_path (files_of "foo" (world_of toolchain_failure)) = Some 100
  ∧ ont_base_path (files_of "foo" (world_of toolchain_failure)) = None
  ∧ spec_skip_download cfg 101
      (files_of "foo" (initial_world (disk_after toolchain_failure))) = true
  ∧ decide_download cfg 101
      (files_of "foo" (initial_world (disk_after toolchain_failure))) = true
  ∧ calls retry_run
    = [Urlretrieve "foo"; Sha256sum "foo"; VerifyHead "foo";
       RobotPrepare "foo"; ReadMetrics "foo"; SanityGate "foo";
       Aggregate "foo"; MakeHtml "foo"].
Proof. split_and!; vm_compute; reflexivity. Qed.

(** C7, on the run that follows the failure of the toolchain. *)
Lemma download_follows_base_file_witness :
  Urlretrieve "foo"
    ∈ trace (world_of (@prepare_ontology fixture_lib cfg 101 "foo" foo_entry
                         (healthy "foo")
                         (initial_world (disk_after toolchain_failure)))).
Proof.
  assert (from_option (λ _, true) false
            (persisted "foo" (initial_world (disk_after toolchain_failure)))
          = true) as Hsome by (vm_compute; reflexivity).
  destruct (persisted "foo" (initial_world (disk_after toolchain_failure)))
    as [r0|] eqn:Hp; [|discriminate Hsome].
  apply persisted_Some in Hp.
  apply (@download_follows_base_file fixture_lib cfg 101 "foo" foo_entry
           (healthy "foo") (initial_world (disk_after toolchain_failure))).
  - right. split; [reflexivity|]. exists r0. exact Hp.
  - eexists; reflexivity.
  - eexists; reflexivity.
  - apply not_elem_of_nil.
  - vm_compute; reflexivity.
Defined.

(** C8, on the run that follows a failed download. *)
Lemma retried_record_has_no_failure_witness :
  (persisted "foo" (initial_world (disk_after failed_download_run))
     ≫= λ r0, r0 !! "failure") = Some (VStr "failed_download")
  ∧ ∃ r',
      persisted "foo"
        (world_of (@prepare_ontology fixture_lib cfg 101 "foo" foo_entry
                     (healthy "foo")
                     (initial_world (disk_after failed_download_run))))
      = Some r'
      ∧ r' !! "failure" = None.
Proof.
  assert ((persisted "foo" (initial_world (disk_after failed_download_run))
             ≫= λ r0, r0 !! "failure") = Some (VStr "failed_download"))
    as Hfailed by (vm_compute; reflexivity).
  split; [exact Hfailed|].
  destruct (persisted "foo" (initial_world (disk_after failed_download_run)))
    as [r0|] eqn:Hp; [|discriminate Hfailed].
  simpl in Hfailed.
  assert (completed (@prepare_ontology fixture_lib cfg 101 "foo" foo_entry
                       (healthy "foo")
                       (initial_world (disk_after failed_download_run)))
          = true) as Hok by (vm_compute; reflexivity).
  destruct (@prepare_ontology fixture_lib cfg 101 "foo" foo_entry
              (healthy "foo")
              (initial_world (disk_after failed_download_run)))
    as [[] w'|w'|w'] eqn:Hrun; [|discriminate Hok..].
  simpl.
  exact (proj1 (@retried_record_has_no_failure fixture_lib cfg 101 "foo"
                  foo_entry (healthy "foo")
                  (initial_world (disk_after failed_download_run)) w' r0
                  Hp Hfailed Hrun)).
Defined.

(** * Further properties *)

Import Contracts Cases.

(** ** Strings *)

Section Strings.

#[local] Arguments append !_ _ / : simpl nomatch.

Implicit Types (s p : string) (c : ascii).

Lemma append_assoc s1 s2 s3 : (s1 +:+ s2) +:+ s3 = s1 +:+ (s2 +:+ s3).
Proof. induction s1 as [|c s1 IH]; simpl; [done | by f_equal]. Qed.

Lemma prefix_spec p s :
  String.prefix p s = true ↔ ∃ post, s = p +:+ post.
Proof.
  revert s. induction p as [|c p IH]; intros s.
  - destruct s; simpl; split; eauto.
  - destruct s as [|c' s]; simpl.
    + split; [done | by intros [post [=]]].
    + destruct (Ascii.ascii_dec c c') as [->|Hne].
      * rewrite IH. split; intros [post Hpost]; exists post; congruence.
      * split; [done | intros [post [=]]; congruence].
Qed.

(** [needle in hay] holds exactly when [hay] is some text, then [needle],
    then some text. *)
Lemma contains_spec (needle hay : string) :
  contains needle hay = true ↔ ∃ pre post, hay = pre +:+ needle +:+ post.
Proof.
  induction hay as [|c hay IH].
  - change (contains needle "") with (String.prefix needle "" || false).
    rewrite orb_false_r, prefix_spec. split.
    + intros [post Hpost]. by exists "", post.
    + intros (pre & post & Heq). destruct pre; [by exists post|done].
  - change (contains needle (String c hay))
      with (String.prefix needle (String c hay) || contains needle hay).
    rewrite orb_true_iff, prefix_spec, IH. split.
    + intros [[post Hpost] | (pre & post & Hpost)].
      * by exists "", post.
      * exists (String c pre), post. simpl. by rewrite Hpost.
    + intros (pre & post & Heq). destruct pre as [|c' pre]; simpl in Heq.
      * left. by exists post.
      * right. exists pre, post. congruence.
Qed.

Lemma lower_ascii_idemp c : lower_ascii (lower_ascii c) = lower_ascii c.
Proof. destruct c as [[] [] [] [] [] [] [] []]; reflexivity. Qed.

Lemma prefix_lower p s : String.prefix p (lower s) = true → lower p = p.
Proof.
  revert s. induction p as [|c p IH]; intros s; [done|].
  destruct s as [|c' s]; simpl; [done|].
  destruct (Ascii.ascii_dec c (lower_ascii c')) as [->|Hne]; [|done].
  intros Hp. by rewrite lower_ascii_idemp, (IH s).
Qed.

End Strings.

(** ** The URI check *)

Section FP003_more.

Import FP003.

Variable re_match : string → string → bool.


Lemma check_entities_offending namespace entities :
  ∀ error warn,
    check_entities re_match namespace entities error warn
    = if existsb (offending namespace) entities
      then Raises AttributeError else Return (error, warn).
Proof.
  induction entities as [|e rest IH]; intros error warn; [done|].
  simpl. unfold offending at 1.
  destruct (isOWLAnnotationProperty e); simpl; [by apply IH|].
  destruct (is_obsolete_entity e); simpl; [by apply IH|].
  unfold check_uri; simpl.
  destruct (String.eqb (lower (getIRI e)) (ontology_iri namespace)); simpl.
  - rewrite andb_false_r. by apply IH.
  - destruct (String.prefix namespace (lower (getIRI e))); simpl;
      [done | by apply IH].
Qed.




End FP003_more.

(** ** The URI check on a big ontology *)

Section Scan_properties.

Import FP003 Scan.

Implicit Types (s : scan) (line : string).

(** A line with [p:about] in it has [about] in it. *)
Lemma contains_about (p line : string) :
  contains "about" line = false → contains (p +:+ ":about") line = false.
Proof.
  intros Hno. apply not_true_is_false. intros Hyes.
  apply contains_spec in Hyes as (pre & post & ->).
  apply not_true_iff_false in Hno. apply Hno, contains_spec.
  exists (pre +:+ p +:+ ":"), post.
  change (p +:+ ":about") with (p +:+ ":" +:+ "about").
  by rewrite !append_assoc.
Qed.

Section Indep.

Variables (re_match re_match' : string → string → bool).
Variable get_prefix : string → option string.
Variables (get_resource_value get_resource_value' : string → string).

Lemma scan_line_indep namespace namespace' s line :
  scan_line re_match get_prefix get_resource_value namespace s line
  = scan_line re_match' get_prefix get_resource_value' namespace' s line.
Proof.
  unfold scan_line.
  destruct (contains "about" line) eqn:Habout; simpl; [done|].
  rewrite (contains_about _ _ Habout), andb_false_r. simpl.
  by repeat case_match.
Qed.

Lemma scan_lines_indep namespace namespace' file :
  ∀ s,
    scan_lines re_match get_prefix get_resource_value namespace s file
    = scan_lines re_match' get_prefix get_resource_value' namespace' s file.
Proof.
  induction file as [|line rest IH]; intros s; [done|]. simpl.
  rewrite (scan_line_indep namespace namespace').
  destruct (scan_line _ _ _ _ _ _) as [[s'|result]|x]; [apply IH | done..].
Qed.

Lemma scan_line_cases namespace s line :
  scan_line re_match get_prefix get_resource_value namespace s line
    = Return (Leave unable_to_parse)
  ∨ ∃ s',
      scan_line re_match get_prefix get_resource_value namespace s line
        = Return (GoOn s')
      ∧ error s' = error s ∧ warn s' = warn s
      ∧ (contains "about" line = false → valid s' = valid s).
Proof.
  unfold scan_line.
  destruct (contains "about" line) eqn:Habout; simpl.
  - destruct (_ && _); [by left|]. right. by eexists.
  - rewrite (contains_about _ _ Habout), andb_false_r. simpl.
    right. repeat case_match; by eexists.
Qed.

Lemma scan_lines_cases namespace file :
  ∀ s,
    scan_lines re_match get_prefix get_resource_value namespace s file
      = Return (Leave unable_to_parse)
    ∨ ∃ s',
        scan_lines re_match get_prefix get_resource_value namespace s file
          = Return (GoOn s')
        ∧ error s' = error s ∧ warn s' = warn s
        ∧ (Forall (λ line, contains "about" line = false) file →
           valid s' = valid s).
Proof.
  induction file as [|line rest IH]; intros s.
  - right. by exists s.
  - simpl.
    destruct (scan_line_cases namespace s line)
      as [-> | (s1 & -> & He & Hw & Hv)]; [by left|].
    destruct (IH s1) as [-> | (s2 & -> & He' & Hw' & Hv')]; [by left|].
    right. exists s2. split_and!; [done|congruence..|].
    intros Hall. apply Forall_cons in Hall as [? ?].
    rewrite Hv', Hv by done. done.
Qed.


End Indep.

End Scan_properties.

(** ** Versioning *)

Section FP004_properties.

Import FP003 FP004.

Section Matching.

#[local] Arguments append !_ _ / : simpl nomatch.

(** The classes of a literal text match that text and nothing else. *)
Lemma classes_literal (p s rest : string) :
  classes (is_char <$> list_ascii_of_string p) s = Some rest ↔ s = p +:+ rest.
Proof.
  revert s. induction p as [|c p IH]; intros s; simpl.
  - split; congruence.
  - destruct s as [|c' s]; [split; discriminate|].
    unfold is_char at 1. destruct (Ascii.eqb_spec c c') as [->|Hne].
    + rewrite IH. split; congruence.
    + split; [discriminate | congruence].
Qed.

Lemma dated_tail_spec (s : string) :
  dated_tail s = true
  ↔ ∃ mid rest,
      s = mid +:+ rest ∧ string_forall is_dot mid = true
      ∧ is_Some (classes slash_date_slash rest).
Proof.
  induction s as [|c s IH].
  - change (dated_tail "")
      with (bool_decide (is_Some (classes slash_date_slash "")) || false).
    rewrite orb_false_r, bool_decide_eq_true. split.
    + intros Hd. by exists "", "".
    + intros (mid & rest & Heq & _ & Hd).
      destruct mid; [|done]. simpl in Heq. by subst.
  - change (dated_tail (String c s))
      with (bool_decide (is_Some (classes slash_date_slash (String c s)))
            || is_dot c && dated_tail s).
    rewrite orb_true_iff, andb_true_iff, bool_decide_eq_true, IH. split.
    + intros [Hd | [Hc (mid & rest & -> & Hmid & Hd)]].
      * by exists "", (String c s).
      * exists (String c mid), rest. simpl. by rewrite Hc, Hmid.
    + intros (mid & rest & Heq & Hmid & Hd).
      destruct mid as [|c' mid]; simpl in Heq.
      * left. by subst.
      * right. simpl in Hmid. apply andb_true_iff in Hmid as [Hc Hmid].
        injection Heq as -> ->. split; [done|]. by exists mid, rest.
Qed.

Lemma match_here_spec (s : string) :
  match_here s = true
  ↔ ∃ mid rest,
      s = purl +:+ mid +:+ rest ∧ string_forall is_dot mid = true
      ∧ is_Some (classes slash_date_slash rest).
Proof.
  unfold match_here.
  destruct (classes (is_char <$> list_ascii_of_string purl) s) as [tail|]
    eqn:Hpurl.
  - apply classes_literal in Hpurl as ->. rewrite dated_tail_spec. split.
    + intros (mid & rest & -> & ?). by exists mid, rest.
    + intros (mid & rest & Heq & ?). exists mid, rest. split; [|done].
      revert Heq. generalize (mid +:+ rest). generalize purl.
      intros p; induction p as [|c p IH]; simpl; intros ? [=]; auto.
  - split; [done|]. intros (mid & rest & -> & _).
    by rewrite (proj2 (classes_literal purl _ (mid +:+ rest)) eq_refl)
      in Hpurl.
Qed.

(** [PATTERN.search] finds a match exactly in the texts that have, after
    anything, the address of the OBO library, then characters other than
    the line feed, then a date between two slashes. *)
Lemma search_spec (s : string) :
  search s = true
  ↔ ∃ pre mid rest,
      s = pre +:+ purl +:+ mid +:+ rest ∧ string_forall is_dot mid = true
      ∧ is_Some (classes slash_date_slash rest).
Proof.
  induction s as [|c s IH].
  - change (search "") with (match_here "" || false).
    rewrite orb_false_r, match_here_spec. split.
    + intros (mid & rest & ?). by exists "", mid, rest.
    + intros (pre & mid & rest & Heq & ?). destruct pre; [|done].
      by exists mid, rest.
  - change (search (String c s)) with (match_here (String c s) || search s).
    rewrite orb_true_iff, match_here_spec, IH. split.
    + intros [(mid & rest & ?) | (pre & mid & rest & -> & ?)].
      * by exists "", mid, rest.
      * by exists (String c pre), mid, rest.
    + intros (pre & mid & rest & Heq & ?).
      destruct pre as [|c' pre]; simpl in Heq.
      * left. by exists mid, rest.
      * right. injection Heq as -> ->. by exists pre, mid, rest.
Qed.

End Matching.

Lemma status_of_comment (st c : string) :
  status_comment st c !! "status" = Some st.
Proof.
  unfold status_comment. rewrite lookup_insert_ne by done.
  apply lookup_singleton_eq.
Qed.

Lemma status_of_only (st : string) : status_only st !! "status" = Some st.
Proof. apply lookup_singleton_eq. Qed.

Variable url_exists : string → bool.
Variable get_big_version_iri : list string → option string.



End FP004_properties.

(** ** How an iteration of the first pass ends *)

Section Ends.

Context {A B : Type}.

Lemma ends_bind (N1 : A → world → Prop) (N : B → world → Prop)
  (C U : world → Prop) (m : M A) (k : A → M B) (w : world) :
  ends N1 C U m w →
  (∀ a w1, m w = Ok a w1 → N1 a w1 → ends N C U (k a) w1) →
  ends N C U (bind m k) w.
Proof.
  unfold ends, bind. intros Hm Hk.
  destruct (m w) as [a w1|w1|w1] eqn:Hmw; [by apply Hk | done..].
Qed.

Lemma ends_mono (N N' : A → world → Prop) (C C' U U' : world → Prop)
  (m : M A) (w : world) :
  ends N C U m w →
  (∀ a w', N a w' → N' a w') → (∀ w', C w' → C' w') → (∀ w', U w' → U' w') →
  ends N' C' U' m w.
Proof. unfold ends. destruct (m w); eauto. Qed.

End Ends.

(** The tag that a failing stage has just saved. *)
Ltac tag_saved :=
  eexists; split;
    [|unfold failure_of; norm; simpl; lookups; reflexivity];
  unfold first_pass_tags;
  repeat first [apply list_elem_of_here | apply list_elem_of_further].

Section Outcomes.

Context `{Lib}.
Variables (cfg : config) (now : Z).
Implicit Types (w : world) (o : string) (r : record).

Lemma detect_change_ends o entry out w :
  ends (λ detected _, ∃ b, detected.1 !! "changed" = Some (VBool b))
       (λ w', skipped cfg o w w' ∨ tagged o w')
       (λ _, False)
       (detect_change cfg now o entry out) w.
Proof.
  unfold ends, detect_change, load_results, resolve_registry, download_stage,
    hash_stage, compare_stage.
  run.
  all: try (right; tag_saved).
  all: try (cbn [fst]; eexists; lookups; reflexivity).
  all: left; split; [done|]; split; [|done]; by eexists.
Qed.

Lemma regenerate_stage_ends o out bns r b w :
  r !! "changed" = Some (VBool b) →
  r !! "failure" = None →
  ends (λ r' _, r' !! "failure" = None)
       (λ w', tagged o w')
       (λ _, False)
       (regenerate_stage now o out bns r) w.
Proof.
  intros Hb Hnone. unfold ends.
  destruct (regenerate_stage now o out bns r w) as [r' w'|w'|w'] eqn:Hrun.
  - apply regenerate_stage_Ok with (k := "failure") in Hrun; [|done..].
    congruence.
  - unfold regenerate_stage, metrics_stage, must_regenerate in Hrun.
    rewrite Hb in Hrun. run. all: tag_saved.
  - unfold regenerate_stage, metrics_stage, must_regenerate in Hrun.
    rewrite Hb in Hrun. run.
Qed.

Lemma sanity_gate_ends o r w :
  r !! "failure" = None →
  ends (λ _ w', passes_gate o w') (λ w', tagged o w') (λ _, False)
       (sanity_gate o r) w.
Proof.
  intros Hnone. unfold ends, sanity_gate. run.
  all: try tag_saved.
  destruct (r !! "metrics") as [[| | | | | |block]|] eqn:Hm; simplify_eq/=.
  destruct (block !! "Axioms: Number of axioms") as [axioms|] eqn:Ha;
    simplify_eq/=.
  match goal with
  | Hc : negb (truthy ?c) = false |- _ =>
      apply negb_false_iff in Hc; exists r, block, axioms, c
  end.
  norm. done.
Qed.

Lemma prepare_ontology_ends o entry out w :
  ends (λ _ w', passes_gate o w')
       (λ w', skipped cfg o w w' ∨ tagged o w')
       (λ _, False)
       (prepare_ontology cfg now o entry out) w.
Proof.
  rewrite prepare_ontology_eq.
  eapply ends_bind; [apply detect_change_ends|].
  intros [r bns] w1 Hdetect [b Hb]. simpl in *.
  apply detect_change_Ok in Hdetect as [Hnone _].
  apply ends_bind with (N1 := λ r' _, r' !! "failure" = None).
  - apply ends_mono with (N := λ r' _, r' !! "failure" = None)
                         (C := tagged o) (U := λ _, False);
      [by eapply regenerate_stage_ends | done | by right | done].
  - intros r' w2 _ Hnone'.
    apply ends_mono with (N := λ _ w', passes_gate o w')
                         (C := tagged o) (U := λ _, False);
      [by apply sanity_gate_ends | done | by right | done].
Qed.

End Outcomes.


Section Outcomes_of_the_first_pass.

Context `{Lib}.
Variables (cfg : config) (now : Z).


Lemma for_each_completes {A} (body : A → M unit) (items : list A) :
  (∀ x w w', body x w ≠ Uncaught w') →
  ∀ w, ∃ w', for_each body items w = Ok tt w'.
Proof.
  intros Hbody. induction items as [|x rest IH]; intros w; simpl.
  - by eexists.
  - destruct (body x w) as [[] w1|w1|w1] eqn:Hx; [apply IH..|].
    by apply Hbody in Hx.
Qed.


End Outcomes_of_the_first_pass.

(** ** What an iteration touches *)

Lemma files_of_with_files_ne (o o' : string) (f : ont_files → ont_files)
  (w : world) :
  o' ≠ o → files_of o' (with_files o f w) = files_of o' w.
Proof.
  intros Hne.
  with_strategy transparent [files_of with_files]
    (unfold files_of, with_files; simpl).
  by rewrite lookup_insert_ne.
Qed.

Lemma use_grows_refl (u : gmap string (list string)) : use_grows u u.
Proof. by intros k. Qed.

Lemma use_grows_trans (u1 u2 u3 : gmap string (list string)) :
  use_grows u1 u2 → use_grows u2 u3 → use_grows u1 u3.
Proof. intros H12 H23 k. etrans; [apply H12 | apply H23]. Qed.

Lemma not_elem_of_prefix (e : event) (t t' : list event) :
  t `prefix_of` t' → e ∉ t' → e ∉ t.
Proof. intros [evs ->] Hn Hin. apply Hn, elem_of_app. by left. Qed.

Lemma footprint_refl (o : string) (w : world) : footprint o w w.
Proof. unfold footprint. split_and!; try done. apply use_grows_refl. Qed.

Lemma footprint_trans (o : string) (w1 w2 w3 : world) :
  footprint o w1 w2 → footprint o w2 w3 → footprint o w1 w3.
Proof.
  intros (Ht & Hf & Hu & Hr & Hg & Hm) (Ht' & Hf' & Hu' & Hr' & Hg' & Hm').
  unfold footprint. split_and!.
  - by etrans.
  - intros o' Ho'. by rewrite Hf', Hf.
  - intros Hn. rewrite Hu' by done. eauto using not_elem_of_prefix.
  - intros Hn. destruct (Hr' Hn) as [-> ->]. eauto using not_elem_of_prefix.
  - by eapply use_grows_trans.
  - intros Hn. rewrite Hm' by done. eauto using not_elem_of_prefix.
Qed.

Section Keeps.

Context {A : Type} (R : world → world → Prop).
Hypothesis R_refl : ∀ w, R w w.
Hypothesis R_trans : ∀ w1 w2 w3, R w1 w2 → R w2 w3 → R w1 w3.

Lemma keeps_ret (a : A) : keeps R (ret a).
Proof. intros w. apply R_refl. Qed.

Lemma keeps_continue : keeps R (@continue A).
Proof. intros w. apply R_refl. Qed.

Lemma keeps_uncaught : keeps R (@uncaught A).
Proof. intros w. apply R_refl. Qed.

Lemma keeps_bind {B} (m : M B) (k : B → M A) :
  keeps R m → (∀ b, keeps R (k b)) → keeps R (bind m k).
Proof.
  intros Hm Hk w. specialize (Hm w). unfold bind.
  destruct (m w) as [b w1|w1|w1]; simpl in *; [|done..].
  eapply R_trans; [done | apply Hk].
Qed.

Lemma keeps_for_each (body : A → M unit) (items : list A) :
  (∀ x, x ∈ items → keeps R (body x)) → keeps R (for_each body items).
Proof.
  induction items as [|x rest IH]; intros Hbody w; [apply R_refl|].
  simpl. pose proof (Hbody x ltac:(by left) w) as Hx.
  assert (keeps R (for_each body rest)) as Hrest.
  { apply IH. intros y Hy. apply Hbody. by right. }
  destruct (body x w) as [[] w1|w1|w1]; simpl in *; [| |done].
  - eapply R_trans; [done | apply Hrest].
  - eapply R_trans; [done | apply Hrest].
Qed.

End Keeps.

(** The state after a stage, against the state before it. *)
Ltac frame :=
  unfold footprint; norm;
  split_and!;
  [ repeat apply prefix_app_r; reflexivity
  | intros ? ?;
    repeat first
      [ rewrite files_of_with_files_ne by done
      | rewrite files_of_add_event
      | rewrite files_of_with_ontology_use ];
    reflexivity
  | rewrite ?elem_of_app, ?list_elem_of_singleton;
    try rewrite ont_path_robot_writes; naive_solver
  | rewrite ?elem_of_app, ?list_elem_of_singleton; naive_solver
  | try apply use_grows_refl
  | rewrite ?elem_of_app, ?list_elem_of_singleton; naive_solver ].

Section Footprint.

Context `{Lib}.
Variables (cfg : config) (now : Z).
Implicit Types (w : world) (o : string) (r : record).

Lemma use_append_lookup (b : string) (u : gmap string (list string))
  (x k : string) :
  default [] (use_append b u x !! k)
  = default [] (u !! k) ++ (if decide (x = k) then [b] else []).
Proof.
  unfold use_append. destruct (decide (x = k)) as [->|Hne].
  - by rewrite lookup_insert_eq.
  - by rewrite lookup_insert_ne, app_nil_r.
Qed.

Lemma foldl_use_append (b : string) (keys : list string) :
  ∀ (u : gmap string (list string)) (k : string),
    default [] (foldl (use_append b) u keys !! k)
    = default [] (u !! k) ++ replicate (occurrences k keys) b.
Proof.
  unfold occurrences.
  induction keys as [|x keys IH]; intros u k; simpl.
  - by rewrite app_nil_r.
  - rewrite IH, use_append_lookup, <- app_assoc. f_equal.
    destruct (decide (x = k)) as [->|Hne].
    + by rewrite filter_cons_True.
    + by rewrite filter_cons_False.
Qed.

Lemma foldl_foldl_use_append (bps keys : list string) :
  ∀ (u : gmap string (list string)) (k : string),
    default []
      (foldl (λ u b, foldl (use_append b) u keys) u bps !! k)
    = default [] (u !! k)
      ++ concat ((λ b, replicate (occurrences k keys) b) <$> bps).
Proof.
  induction bps as [|b bps IH]; intros u k; simpl.
  - by rewrite app_nil_r.
  - by rewrite IH, foldl_use_append, <- app_assoc.
Qed.

Lemma record_use_grows bps used u u' :
  record_use bps used u = Some u' → use_grows u u'.
Proof.
  unfold record_use. intros Hu k.
  destruct bps as [|b bps]; [by simplify_eq|].
  destruct (iter_keys used) as [keys|]; simplify_eq.
  rewrite (foldl_foldl_use_append (b :: bps)). by apply prefix_app_r.
Qed.

Lemma read_metrics_use_grows loaded bns r u r' u' :
  read_metrics loaded bns r u = Done (r', u')
  ∨ read_metrics loaded bns r u = Except (r', u') →
  use_grows u u'.
Proof.
  unfold read_metrics. intros Hread.
  repeat case_match; destruct Hread; simplify_eq;
    try apply use_grows_refl.
  match goal with
  | Hu : _ ≫= _ = Some _ |- _ =>
      apply bind_Some in Hu as (used & _ & Hu); by eapply record_use_grows
  end.
Qed.

Lemma keeps_load_results o : keeps (footprint o) (load_results cfg o).
Proof. intros w. unfold load_results. run; frame. Qed.

Lemma keeps_resolve_registry o entry r :
  keeps (footprint o) (resolve_registry o entry r).
Proof. intros w. unfold resolve_registry. run; frame. Qed.

Lemma keeps_download_stage o out download r :
  keeps (footprint o) (download_stage now o out download r).
Proof. intros w. unfold download_stage. run; frame. Qed.

Lemma keeps_hash_stage o download r :
  keeps (footprint o) (hash_stage o download r).
Proof. intros w. unfold hash_stage. run; frame. Qed.

Lemma keeps_compare_stage o ourl make_base h r :
  keeps (footprint o) (compare_stage cfg now o ourl make_base h r).
Proof. intros w. unfold compare_stage. run; frame. Qed.

Lemma keeps_metrics_stage o bns r :
  keeps (footprint o) (metrics_stage o bns r).
Proof.
  intros w. unfold metrics_stage. run; frame.
  all: eapply read_metrics_use_grows; eauto.
Qed.

Lemma keeps_regenerate_stage o out bns r :
  keeps (footprint o) (regenerate_stage now o out bns r).
Proof.
  intros w. unfold regenerate_stage.
  unfold_run; norm.
  destruct (must_regenerate (files_of o w) r) as [[]|]; norm; [|frame..].
  destruct (head_is_ontology (ont_path (files_of o w))); norm; [|frame].
  destruct (robot_raises (robot_prepare_ontology out)); norm; [frame|].
  eapply footprint_trans; [|apply keeps_metrics_stage]. frame.
Qed.

Lemma keeps_sanity_gate o r : keeps (footprint o) (sanity_gate o r).
Proof. intros w. unfold sanity_gate. run; frame. Qed.

Lemma keeps_prepare_ontology o entry out :
  keeps (footprint o) (prepare_ontology cfg now o entry out).
Proof.
  pose proof (footprint_refl o) as Hrefl.
  pose proof (footprint_trans o) as Htrans.
  rewrite prepare_ontology_eq. unfold detect_change.
  repeat first
    [ apply keeps_load_results | apply keeps_resolve_registry
    | apply keeps_download_stage | apply keeps_hash_stage
    | apply keeps_compare_stage | apply keeps_regenerate_stage
    | apply keeps_sanity_gate | apply keeps_ret; done
    | intros w; apply footprint_refl
    | match goal with |- keeps _ (let '(_, _) := ?x in _) => destruct x end
    | apply keeps_bind; [done| |intros ?] ].
Qed.



Lemma first_pass_footprint_refl names w : first_pass_footprint names w w.
Proof. split_and!; try done. apply use_grows_refl. Qed.

Lemma first_pass_footprint_trans names w1 w2 w3 :
  first_pass_footprint names w1 w2 → first_pass_footprint names w2 w3 →
  first_pass_footprint names w1 w3.
Proof.
  intros (Ht & Hf & Hg) (Ht' & Hf' & Hg'). split_and!.
  - by etrans.
  - intros o Ho. by rewrite Hf', Hf.
  - by eapply use_grows_trans.
Qed.

Lemma footprint_first_pass names o w w' :
  o ∈ names → footprint o w w' → first_pass_footprint names w w'.
Proof.
  intros Ho (Ht & Hf & _ & _ & Hg & _). split_and!; [done| |done].
  intros o' Ho'. apply Hf. by intros ->.
Qed.

Lemma keeps_first_pass (ontologies : list (string * registry_entry))
  (env : string → outside) :
  keeps (first_pass_footprint (ontologies.*1))
        (first_pass cfg now ontologies env).
Proof.
  unfold first_pass. apply keeps_for_each.
  - apply first_pass_footprint_refl.
  - apply first_pass_footprint_trans.
  - intros [o entry] Hin w.
    apply footprint_first_pass with (o := o).
    + apply list_elem_of_fmap. by exists (o, entry).
    + apply keeps_prepare_ontology.
Qed.


Lemma second_pass_footprint_refl names w : second_pass_footprint names w w.
Proof. by split_and!. Qed.

Lemma second_pass_footprint_trans names w1 w2 w3 :
  second_pass_footprint names w1 w2 → second_pass_footprint names w2 w3 →
  second_pass_footprint names w1 w3.
Proof.
  intros (Ht & Hu & Hf) (Ht' & Hu' & Hf'). split_and!.
  - by etrans.
  - congruence.
  - intros o.
    destruct (Hf o) as (? & ? & ? & Hr), (Hf' o) as (? & ? & ? & Hr').
    split_and!; try congruence. intros Ho. rewrite Hr' by done. by apply Hr.
Qed.

Lemma second_pass_footprint_mono names names' w w' :
  names ⊆ names' →
  second_pass_footprint names w w' → second_pass_footprint names' w w'.
Proof.
  intros Hsub (Ht & Hu & Hf). split_and!; [done..|].
  intros o. destruct (Hf o) as (? & ? & ? & Hr). split_and!; [done..|].
  intros Ho. apply Hr. intros Hin. by apply Ho, Hsub.
Qed.

Lemma keeps_aggregate_ontology n o out :
  keeps (second_pass_footprint [o]) (aggregate_ontology cfg n o out).
Proof.
  intros w. unfold aggregate_ontology, must_render. run.
  all: unfold second_pass_footprint; norm.
  all: split_and!;
    [ repeat apply prefix_app_r; reflexivity | reflexivity | intros o' ].
  all: destruct (decide (o' = o)) as [->|Hne]; norm;
    repeat first
      [ rewrite files_of_with_files_ne by done
      | rewrite files_of_add_event
      | rewrite files_of_with_ontology_use ];
    split_and!; try reflexivity; try done.
  all: intros Hn; exfalso; apply Hn; by left.
Qed.

Lemma keeps_second_pass (ontologies : list (string * registry_entry))
  (env : string → outside) :
  keeps (second_pass_footprint (ontologies.*1))
        (second_pass cfg ontologies env).
Proof.
  unfold second_pass. apply keeps_for_each.
  - apply second_pass_footprint_refl.
  - apply second_pass_footprint_trans.
  - intros [o entry] Hin w.
    apply second_pass_footprint_mono with (names := [o]).
    + intros o' ->%list_elem_of_singleton.
      apply list_elem_of_fmap. by exists (o, entry).
    + apply keeps_aggregate_ontology.
Qed.



End Footprint.

(** ** The order of the calls *)

Section Adds.

Context {A : Type}.

Lemma adds_bind {B} (L1 L2 : list event) (m : M B) (k : B → M A) :
  adds L1 m → (∀ b, adds L2 (k b)) → adds (L1 ++ L2) (bind m k).
Proof.
  intros Hm Hk w. destruct (Hm w) as (evs & Htr & Hevs). unfold bind.
  destruct (m w) as [b w1|w1|w1]; simpl in *.
  - destruct (Hk b w1) as (evs' & Htr' & Hevs').
    exists (evs ++ evs'). rewrite Htr', Htr, app_assoc. split; [done|].
    unfold calls_of in *. rewrite omap_app. by apply sublist_app.
  - exists evs. split; [done|]. by apply sublist_inserts_r.
  - exists evs. split; [done|]. by apply sublist_inserts_r.
Qed.

End Adds.

(** The events a stage has added, against the calls it may make. *)
Ltac count_calls :=
  norm; rewrite <- ?app_assoc;
  first [ exists []; split; [by rewrite app_nil_r|]
        | eexists; split; [reflexivity|] ];
  simpl;
  repeat first [apply sublist_nil | apply sublist_skip | apply sublist_cons].

Section Order.

Context `{Lib}.
Variables (cfg : config) (now : Z).
Implicit Types (w : world) (o : string) (r : record).

Lemma adds_detect_change o entry out :
  adds [Urlretrieve o; Sha256sum o] (detect_change cfg now o entry out).
Proof.
  intros w.
  unfold detect_change, load_results, resolve_registry, download_stage,
    hash_stage, compare_stage.
  run; count_calls.
Qed.

Lemma adds_regenerate_stage o out bns r :
  adds [VerifyHead o; RobotPrepare o; ReadMetrics o]
       (regenerate_stage now o out bns r).
Proof.
  intros w. unfold regenerate_stage, metrics_stage. run; count_calls.
Qed.

Lemma adds_sanity_gate o r : adds [SanityGate o] (sanity_gate o r).
Proof. intros w. unfold sanity_gate. run; count_calls. Qed.


(** ** The comparison of hashes *)


(** ** The check of the first lines *)


(** ** A metrics file that lacks a key *)


(** ** Existing results *)


End Order.

(** ** The two passes *)

Section Passes.

Context `{Lib}.
Variables (cfg : config) (now : Z).
Implicit Types (w : world) (o : string) (r : record).

Lemma emits_mono {A} (P Q : event → Prop) (m : M A) :
  (∀ e, P e → Q e) → emits P m → emits Q m.
Proof.
  intros HPQ Hm w. destruct (Hm w) as (evs & Htr & Hevs).
  exists evs. split; [done|]. by eapply Forall_impl.
Qed.

Lemma emits_for_each {A} (P : event → Prop) (body : A → M unit)
  (items : list A) :
  (∀ x, emits P (body x)) → emits P (for_each body items).
Proof.
  intros Hbody. induction items as [|x rest IH]; intros w; simpl.
  - exists []. by rewrite app_nil_r.
  - destruct (Hbody x w) as (evs & Htr & Hevs).
    destruct (body x w) as [[] w1|w1|w1]; simpl in *; [| |by eauto].
    all: destruct (IH w1) as (evs' & Htr' & Hevs').
    all: exists (evs ++ evs'); rewrite Htr', Htr, app_assoc.
    all: split; [done | by apply Forall_app].
Qed.

Lemma emits_prepare_ontology o entry out :
  emits (quiet o (first_pass_calls o)) (prepare_ontology cfg now o entry out).
Proof.
  rewrite prepare_ontology_eq. unfold first_pass_calls.
  apply emits_bind; [apply emits_detect_change; set_solver|].
  intros [r bns].
  apply emits_bind; [apply emits_regenerate_stage; set_solver|].
  intros r'. apply emits_sanity_gate. set_solver.
Qed.

Lemma emits_aggregate_ontology n o out :
  emits (quiet o (second_pass_calls o)) (aggregate_ontology cfg n o out).
Proof. unfold aggregate_ontology, second_pass_calls. solve_emits. Qed.


(** ** The page of an ontology *)


End Passes.

(** ** The metrics of an earlier run, over a whole run *)

Section Metrics_over_a_run.

Context `{Lib}.
Variables (cfg : config) (now : Z).
Implicit Types (w : world) (o : string) (r : record).

Lemma metrics_of_results o w w' :
  ont_results_path (files_of o w') = ont_results_path (files_of o w) →
  metrics_of o w' = metrics_of o w.
Proof. intros Hf. unfold metrics_of. by rewrite !persisted_eq, Hf. Qed.

Lemma iteration_keeps_metrics_of o o' entry out w :
  trace w `prefix_of` trace (world_of (prepare_ontology cfg now o' entry out w))
  ∧ (ReadMetrics o
       ∉ trace (world_of (prepare_ontology cfg now o' entry out w)) →
     metrics_of o (world_of (prepare_ontology cfg now o' entry out w))
     = metrics_of o w).
Proof.
  destruct (keeps_prepare_ontology cfg now o' entry out w) as (Ht & Hf & _).
  split; [done|]. intros Hn. destruct (decide (o' = o)) as [->|Hne].
  - unfold metrics_of. apply prepare_ontology_keeps_loaded_metrics; [|done].
    by eapply not_elem_of_prefix.
  - apply metrics_of_results. by rewrite Hf.
Qed.

Lemma first_pass_keeps_metrics_of o
  (ontologies : list (string * registry_entry)) (env : string → outside) w :
  trace w `prefix_of` trace (world_of (first_pass cfg now ontologies env w))
  ∧ (ReadMetrics o
       ∉ trace (world_of (first_pass cfg now ontologies env w)) →
     metrics_of o (world_of (first_pass cfg now ontologies env w))
     = metrics_of o w).
Proof.
  unfold first_pass.
  apply (keeps_for_each
           (λ w w', trace w `prefix_of` trace w'
                    ∧ (ReadMetrics o ∉ trace w' →
                       metrics_of o w' = metrics_of o w))).
  - done.
  - intros w1 w2 w3 [Ht Hm] [Ht' Hm']. split; [by etrans|].
    intros Hn. rewrite Hm' by done. apply Hm. by eapply not_elem_of_prefix.
  - intros [o' entry] _ w0. apply iteration_keeps_metrics_of.
Qed.

Lemma aggregate_rewrites_aggregation_keys n o o' out w :
  (is_Some (metrics_of o (world_of (aggregate_ontology cfg n o' out w)))
   ↔ is_Some (metrics_of o w))
  ∧ ∀ k, k ∉ aggregation_keys →
      metric_of o k (world_of (aggregate_ontology cfg n o' out w))
      = metric_of o k w.
Proof.
  destruct (decide (o' = o)) as [->|Hne].
  - unfold metric_of, metrics_of. rewrite (persisted_eq o w).
    unfold aggregate_ontology, must_render. run.
    all: rewrite ?persisted_eq.
    all: repeat match goal with
           | Hf : ont_results_path _ = _ |- _ => rewrite Hf
           end.
    all: simpl; lookups.
    all: repeat match goal with
           | Hm : _ !! "metrics" = _ |- _ => rewrite Hm
           end.
    all: try done.
    all: match goal with
         | Hs : score_metrics _ _ _ = Some _ |- _ =>
             apply score_metrics_Some in Hs as (reuse & ->)
         end.
    all: split; [by split; eauto|].
    all: intros k Hk; simpl.
    all: rewrite !lookup_insert_ne; [done|..].
    all: intros <-; apply Hk; unfold aggregation_keys;
      repeat first [apply list_elem_of_here | apply list_elem_of_further].
  - destruct (keeps_aggregate_ontology cfg n o' out w) as (_ & _ & Hf).
    destruct (Hf o) as (_ & _ & _ & Hr).
    assert (metrics_of o (world_of (aggregate_ontology cfg n o' out w))
            = metrics_of o w) as Heq.
    { apply metrics_of_results, Hr.
      intros ->%list_elem_of_singleton. done. }
    unfold metric_of. by rewrite Heq.
Qed.

Lemma second_pass_rewrites_aggregation_keys o
  (ontologies : list (string * registry_entry)) (env : string → outside) w :
  (is_Some (metrics_of o (world_of (second_pass cfg ontologies env w)))
   ↔ is_Some (metrics_of o w))
  ∧ ∀ k, k ∉ aggregation_keys →
      metric_of o k (world_of (second_pass cfg ontologies env w))
      = metric_of o k w.
Proof.
  unfold second_pass.
  apply (keeps_for_each
           (λ w w', (is_Some (metrics_of o w') ↔ is_Some (metrics_of o w))
                    ∧ ∀ k, k ∉ aggregation_keys →
                        metric_of o k w' = metric_of o k w)).
  - done.
  - intros w1 w2 w3 [Hs Hk] [Hs' Hk']. split; [by rewrite Hs'|].
    intros k Hin. rewrite Hk' by done. by apply Hk.
  - intros [o' entry] _ w0. apply aggregate_rewrites_aggregation_keys.
Qed.

(** C3, as the code has it. In a run in which the metrics stage does not
    run for an ontology (in particular a run that fails at the URL, the
    base namespaces, the download, the hash, the verification or the
    toolchain), the first pass leaves the ['metrics'] entry of the record
    of the previous run as it is, next to the failure tag. The second pass
    then keeps a metrics block in the record exactly when there was one,
    and changes in it the number of users and the score only: every other
    entry of the block that the run leaves is the entry that the record of
    the previous run held. *)
Theorem early_failure_keeps_loaded_metrics
  (ontologies : list (string * registry_entry)) (env : string → outside)
  (disk : gmap string ont_files) (o : string) :
  ReadMetrics o
    ∉ trace (world_of (prepare_ontologies cfg now ontologies env disk)) →
  metrics_of o
    (world_of (first_pass cfg now ontologies env (initial_world disk)))
  = metrics_of o (initial_world disk)
  ∧ (is_Some
       (metrics_of o
          (world_of (prepare_ontologies cfg now ontologies env disk)))
     ↔ is_Some (metrics_of o (initial_world disk)))
  ∧ ∀ k, k ∉ aggregation_keys →
      metric_of o k
        (world_of (prepare_ontologies cfg now ontologies env disk))
      = metric_of o k (initial_world disk).
Proof.
  destruct (for_each_completes
              (λ '(o, entry), prepare_ontology cfg now o entry (env o))
              ontologies) with (w := initial_world disk) as [w1 Hw1].
  { intros [o' entry] w w' Hrun.
    pose proof (prepare_ontology_ends cfg now o' entry (env o') w) as Hends.
    unfold ends in Hends. by rewrite Hrun in Hends. }
  assert (prepare_ontologies cfg now ontologies env disk
          = second_pass cfg ontologies env w1) as ->.
  { unfold prepare_ontologies, bind, first_pass. by rewrite Hw1. }
  intros Hn.
  destruct (first_pass_keeps_metrics_of o ontologies env (initial_world disk))
    as [_ Hfirst].
  unfold first_pass in Hfirst |- *. rewrite Hw1 in Hfirst |- *.
  simpl in Hfirst |- *.
  destruct (keeps_second_pass cfg ontologies env w1) as (Ht & _).
  assert (metrics_of o w1 = metrics_of o (initial_world disk)) as Hm.
  { apply Hfirst. by eapply not_elem_of_prefix. }
  destruct (second_pass_rewrites_aggregation_keys o ontologies env w1)
    as [Hs Hk].
  split; [done|]. split.
  - by rewrite Hs, Hm.
  - intros k Hin. rewrite Hk by done. unfold metric_of. by rewrite Hm.
Qed.

End Metrics_over_a_run.

(** ** The number of users *)

Section Users.

Context `{Lib}.
Implicit Types (u : gmap string (list string)) (r : record).

Lemma occurrences_0 (p : string) (keys : list string) :
  occurrences p keys = 0%nat ↔ p ∉ keys.
Proof.
  unfold occurrences. induction keys as [|x keys IH]; simpl.
  - split; [intros _; apply not_elem_of_nil | done].
  - rewrite not_elem_of_cons. destruct (decide (x = p)) as [->|Hne].
    + rewrite filter_cons_True by done. simpl. naive_solver.
    + rewrite filter_cons_False by done. rewrite IH. naive_solver.
Qed.

Lemma list_to_set_replicated (c : nat) (l : list string) :
  (list_to_set (concat ((λ b, replicate c b) <$> l)) : gset string)
  = if decide (c = 0%nat) then ∅ else list_to_set l.
Proof.
  induction l as [|b l IH]; csimpl.
  - by destruct (decide (c = 0%nat)).
  - rewrite list_to_set_app_L, IH.
    destruct c as [|c]; simpl; [set_solver|].
    assert ((list_to_set (replicate c b) : gset string) ⊆ {[b]}) as Hsub.
    { clear. induction c as [|c IH]; simpl; set_solver. }
    set_solver.
Qed.

(** What the two loops over the base prefixes of a user leave in
    [ontology_use]: for each key, as a set, what was there and, when the
    key is among the namespaces in use, the base prefixes of the user. *)
Lemma record_use_sets (user_bps : list string) (used : yval)
  (keys : list string) u0 u (p : string) :
  iter_keys used = Some keys →
  record_use user_bps used u0 = Some u →
  (list_to_set (default [] (u !! p)) : gset string)
  = list_to_set (default [] (u0 !! p))
    ∪ (if decide (p ∈ keys) then list_to_set user_bps else ∅).
Proof.
  unfold record_use. intros Hkeys Hu.
  destruct user_bps as [|b user_bps].
  - simplify_eq. destruct (decide (p ∈ keys)); set_solver.
  - rewrite Hkeys in Hu. simplify_eq.
    rewrite (foldl_foldl_use_append (b :: user_bps)).
    rewrite list_to_set_app_L, list_to_set_replicated.
    destruct (decide (p ∈ keys)) as [Hin|Hout].
    + destruct (decide (occurrences p keys = 0%nat)) as [H0|_]; [|done].
      by apply occurrences_0 in H0.
    + apply occurrences_0 in Hout. by rewrite Hout.
Qed.

Lemma union_of_one_set (S : gset string) (keys bps : list string) :
  (∃ p, p ∈ bps ∧ p ∈ keys) →
  ⋃ ((λ p, if decide (p ∈ keys) then S else ∅) <$> bps) = S.
Proof.
  intros (p & Hbps & Hkeys).
  induction bps as [|q bps IH]; [by apply elem_of_nil in Hbps|].
  csimpl. apply elem_of_cons in Hbps as [<-|Hbps].
  - rewrite decide_True by done.
    assert (⋃ ((λ p, if decide (p ∈ keys) then S else ∅) <$> bps) ⊆ S)
      as Hsub.
    { clear. induction bps as [|q bps IH]; csimpl; [set_solver|].
      destruct (decide (q ∈ keys)); set_solver. }
    set_solver.
  - rewrite IH by done. destruct (decide (q ∈ keys)); set_solver.
Qed.

(** C6, as the code has it. The number of users of an ontology is the
    size of the union, over its base prefixes, of the entries of
    [ontology_use] for these prefixes, and the impact score is that
    number divided by the number of registered ontologies, passed through
    [round_float]. What the first pass puts into an entry are the base
    prefixes of the ontologies that use the prefix, not their names: the
    two loops of a user add, to the entry of every namespace it uses, each
    of its base prefixes. So the union is deduplicated by base prefix: one
    user with several base prefixes counts once for each of them, and a
    base prefix that uses two prefixes of the ontology counts once. *)
Theorem reuse_count_is_union_over_base_prefixes n (bps : list string)
  u r (block block' : record) :
  r !! "base_prefixes" = Some (VList (VStr <$> bps)) →
  score_metrics n (concat ((λ p, default [] (u !! p)) <$> bps)) block
    = Some block' →
  collect_uses r u = Some (concat ((λ p, default [] (u !! p)) <$> bps))
  ∧ count_uses (concat ((λ p, default [] (u !! p)) <$> bps))
    = size (⋃ ((λ p, list_to_set (default [] (u !! p)) : gset string)
                 <$> bps))
  ∧ block' !! "Info: How many ontologies use it?"
    = Some (VInt (Z.of_nat
                    (count_uses
                       (concat ((λ p, default [] (u !! p)) <$> bps)))))
  ∧ block' !! "Info: Experimental OBO score"
      ≫= (λ score, subscript score "_impact")
    = Some (VFloat
              (round_float
                 (Qdiv (Z.of_nat
                          (count_uses
                             (concat ((λ p, default [] (u !! p)) <$> bps)))
                        # 1)
                       (Z.of_nat n # 1))))
  ∧ (∀ u0 (user_bps : list string) (used : yval) (keys : list string),
       iter_keys used = Some keys →
       record_use user_bps used u0 = Some u →
       (∀ p, (list_to_set (default [] (u !! p)) : gset string)
             = list_to_set (default [] (u0 !! p))
               ∪ (if decide (p ∈ keys) then list_to_set user_bps else ∅))
       ∧ (u0 = ∅ → NoDup user_bps → (∃ p, p ∈ bps ∧ p ∈ keys) →
          count_uses (concat ((λ p, default [] (u !! p)) <$> bps))
          = length user_bps))
  ∧ (∀ p1 p2 b,
       bps = [p1; p2] → u !! p1 = Some [b] → u !! p2 = Some [b] →
       count_uses (concat ((λ p, default [] (u !! p)) <$> bps)) = 1%nat).
Proof.
  intros Hbps Hscore. split_and!.
  - unfold collect_uses. rewrite Hbps. simpl.
    by rewrite mapM_as_str_strings.
  - unfold count_uses. rewrite list_to_set_concat.
    by rewrite <- list_fmap_compose.
  - destruct (score_metrics_Some _ _ _ _ Hscore) as (reuse & ->).
    rewrite lookup_insert_ne by done. apply lookup_insert_eq.
  - destruct (score_metrics_Some _ _ _ _ Hscore) as (reuse & ->).
    rewrite lookup_insert_eq. simpl.
    rewrite lookup_insert_ne by done. by rewrite lookup_insert_eq.
  - intros u0 user_bps used keys Hkeys Hu. split.
    + intros p. by eapply record_use_sets.
    + intros -> Hnodup Hsome. unfold count_uses.
      rewrite list_to_set_concat, <- list_fmap_compose.
      erewrite list_fmap_ext with
        (g := λ p, if decide (p ∈ keys)
                   then (list_to_set user_bps : gset string) else ∅).
      * rewrite union_of_one_set by done. by apply size_list_to_set.
      * intros i p _. simpl.
        rewrite (record_use_sets user_bps used keys ∅ u p Hkeys Hu).
        rewrite lookup_empty. simpl. set_solver.
  - intros p1 p2 b -> H1 H2. unfold count_uses.
    assert ((list_to_set (concat ((λ p, default [] (u !! p)) <$> [p1; p2]))
              : gset string) = {[b]}) as ->.
    { simpl. rewrite H1, H2. simpl. set_solver. }
    apply size_singleton.
Qed.

End Users.

(** ** The further properties on concrete inputs *)








(** ** The revised statements on concrete runs *)

(** C3, on the run with the source offline. *)
Lemma early_failure_keeps_loaded_metrics_witness :
  metrics_of "foo"
    (world_of (@first_pass fixture_lib cfg 200 only_foo offline
                 (initial_world (disk_after first_run))))
  = metrics_of "foo" (initial_world (disk_after first_run))
  ∧ metric_of "foo" "Axioms: Number of axioms"
      (world_of (@prepare_ontologies fixture_lib cfg 200 only_foo offline
                   (disk_after first_run)))
    = metric_of "foo" "Axioms: Number of axioms"
        (initial_world (disk_after first_run)).
Proof.
  destruct (@early_failure_keeps_loaded_metrics fixture_lib cfg 200 only_foo
              offline (disk_after first_run) "foo")
    as (Hfirst & _ & Hkeys).
  - not_in_trace.
  - split; [exact Hfirst|]. apply Hkeys.
    intros Hin.
    repeat (apply elem_of_cons in Hin as [Hin|Hin]; [discriminate Hin|]).
    by apply elem_of_nil in Hin.
Defined.

(** C5 fails on the code. An ontology without axioms is recorded with
    [empty_ontology]; in the next run the source is offline, and the run
    leaves a record whose metrics count no axiom with
    [failure = failed_download]. In a single run, a metrics file that
    counts no axiom and lacks the last key is recorded with
    [failure = broken_metrics_file], the metrics block counting no axiom
    and saying that the ontology is consistent. *)
Lemma empty_record_carries_another_tag :
  field "failure" empty_run = Some (VStr "empty_ontology")
  ∧ calls empty_then_offline = [Urlretrieve "foo"; Aggregate "foo"]
  ∧ metric "Axioms: Number of axioms" empty_then_offline = Some (VInt 0)
  ∧ field "failure" empty_then_offline = Some (VStr "failed_download")
  ∧ calls half_written_run
    = [Urlretrieve "foo"; Sha256sum "foo"; VerifyHead "foo";
       RobotPrepare "foo"; ReadMetrics "foo"; Aggregate "foo"]
  ∧ metric "Axioms: Number of axioms" half_written_run = Some (VInt 0)
  ∧ metric "Info: Logical consistency" half_written_run = Some (VBool true)
  ∧ field "failure" half_written_run = Some (VStr "broken_metrics_file").
Proof. split_and!; vm_compute; reflexivity. Qed.

(** C6, on an ontology with the two base prefixes [FOO] and [FOOX] and one
    user of both that has the two base prefixes [BAR] and [BARX]: the
    entries of the two prefixes are the same two base prefixes, their
    union has two elements, and the one user counts twice. *)
Lemma reuse_count_is_union_over_base_prefixes_witness :
  record_use user_prefixes user_usage ∅ = Some use_after_user
  ∧ concat ((λ p, default [] (use_after_user !! p)) <$> two_prefixes)
    = ["BAR"; "BARX"; "BAR"; "BARX"]
  ∧ count_uses
      (concat ((λ p, default [] (use_after_user !! p)) <$> two_prefixes))
    = 2%nat.
Proof.
  assert (record_use user_prefixes user_usage ∅ = Some use_after_user)
    as Huse by (vm_compute; reflexivity).
  split; [exact Huse|]. split; [vm_compute; reflexivity|].
  destruct (@reuse_count_is_union_over_base_prefixes fixture_lib 2
              two_prefixes use_after_user
              {[ "base_prefixes" := VList (VStr <$> two_prefixes) ]}
              {[ "Entities: % of entities reused" := VFloat (25 # 1) ]}
              _ (lookup_singleton_eq _ _)
              (@score_metrics_intro fixture_lib 2 _ _ (VFloat (25 # 1))
                 (25 # 1) ltac:(discriminate)
                 (lookup_singleton_eq _ _) eq_refl))
    as (_ & _ & _ & _ & Hrecorded & _).
  destruct (Hrecorded ∅ user_prefixes user_usage ["FOOX"; "FOO"]
              ltac:(vm_compute; reflexivity) Huse) as [_ Hcount].
  apply Hcount.
  - reflexivity.
  - apply (proj1 (bool_decide_spec _)). vm_compute. exact I.
  - exists "FOO". split; [apply list_elem_of_here|].
    apply list_elem_of_further, list_elem_of_here.
Defined.
